(** * mp4-multitrack-wav-exporter: the orchestration of ffprobe and ffmpeg

    A shallow embedding of [main.py].  The program is sequential glue over
    two external processes, so a run is modelled by what it does to the
    outside: the ordered trace of console reports, subprocess invocations
    and directory creations, together with how the call ends (a normal
    return or an exception that leaves the function).  Everything the
    program asks of the operating system or of a library is answered by a
    [world]. *)

From stdpp Require Import base numbers list strings pretty gmap.

Set Warnings "-register-all".

Open Scope string_scope.
Open Scope list_scope.
Open Scope Z_scope.

(** ** Python exceptions *)

(** The exception classes the handlers of [main.py] tell apart, as their
    place in Python's hierarchy requires: [FileNotFoundError] is an
    [OSError]; [JSONDecodeError] is a [ValueError]; every class here derives
    from [Exception]. *)
Inductive exn : Type :=
  | FileNotFoundError (text : string)
  | OSError (text : string)
      (* an OSError that is not a FileNotFoundError, e.g. PermissionError *)
  | CalledProcessError (returncode : Z) (stderr : option string)
  | JSONDecodeError (text : string)
  | AttributeError (text : string)
  | TypeError (text : string)
  | OtherException (class text : string).
      (* any other subclass of Exception, e.g. ValueError *)

(** [isinstance(e, OSError)]. *)
Definition is_OSError (e : exn) : bool :=
  match e with
  | FileNotFoundError _ | OSError _ => true
  | _ => false
  end.

(** [isinstance(e, FileNotFoundError)]. *)
Definition is_FileNotFoundError (e : exn) : bool :=
  match e with
  | FileNotFoundError _ => true
  | _ => false
  end.

(** How a call ends. *)
Inductive result (A : Type) : Type :=
  | Returned (a : A)
  | Raised (e : exn).
Arguments Returned {A} a.
Arguments Raised {A} e.

(** ** Parsed JSON *)

Inductive json : Type :=
  | JNull
  | JBool (b : bool)
  | JNumber (n : Z)
  | JString (s : string)
  | JArray (items : list json)
  | JObject (members : gmap string json).

(** [obj.get(key, default)]: only a dict has the method. *)
Definition py_get (obj : json) (key : string) (dflt : json) : result json :=
  match obj with
  | JObject members => Returned (default dflt (members !! key))
  | _ => Raised (AttributeError "object has no attribute 'get'")
  end.

(** [len(obj)]: defined on strings, lists and dicts. *)
Definition py_len (obj : json) : result Z :=
  match obj with
  | JString s => Returned (Z.of_nat (String.length s))
  | JArray items => Returned (Z.of_nat (length items))
  | JObject members => Returned (Z.of_nat (size members))
  | _ => Raised (TypeError "object has no len()")
  end.

(** ** What a run does to the outside *)

(** One constructor per [print] call of [main.py]; the line of the call is
    given with each. *)
Inductive message : Type :=
  | MsgFfprobeMissing                                   (* line 29 *)
  | MsgFfprobeFailed (e : exn)                          (* line 32 *)
  | MsgFfprobeDetail (stderr : string)                  (* line 34 *)
  | MsgParseFailed                                      (* line 37 *)
  | MsgInspectUnexpected (e : exn)                      (* line 40 *)
  | MsgInputNotFound (mp4_filepath : string)            (* line 53 *)
  | MsgProcessing (mp4_filepath : string)               (* line 56 *)
  | MsgNoTracks (mp4_filepath : string)                 (* line 61 *)
  | MsgTracksFound (mp4_filepath : string) (n : Z)      (* line 65 *)
  | MsgDirCreated (output_dir : string)                 (* line 76 *)
  | MsgDirFailed (output_dir : string) (e : exn)        (* line 78 *)
  | MsgExtracting (i : Z) (output_filepath : string)    (* line 99 *)
  | MsgTrackDone (i : Z)                                (* line 103 *)
  | MsgFfmpegMissing                                    (* line 106 *)
  | MsgTrackFailed (i : Z)                              (* line 109 *)
  | MsgCommand (command : list string)                  (* lines 110, 118 *)
  | MsgFfmpegStderr (stderr : string)                   (* line 113 *)
  | MsgErrorDetail (e : exn)                            (* line 115 *)
  | MsgTrackUnexpected (i : Z) (e : exn)                (* line 117 *)
  | MsgAllSucceeded (successful_extractions : Z)        (* line 122 *)
  | MsgPartial (successful_extractions : Z)             (* line 125 *)
  | MsgOutputDir (absolute_dir : string)                (* lines 123, 126 *)
  | MsgAllFailed.                                       (* line 128 *)

Inductive event : Type :=
  | Console (m : message)
  | Run (command : list string)      (* subprocess.run(command, ...) *)
  | Makedirs (dir : string).         (* os.makedirs(dir, exist_ok=True) *)

(** ** The outside world

    The answers of the operating system and of the libraries.  Within one
    run every query is made at most once per argument (the ffprobe command
    and the per-index ffmpeg commands are pairwise different), so answers
    indexed by the argument cover every combination of outcomes. *)
Record world : Type := World {
  isfile : string -> bool;                          (* os.path.isfile *)
  path_exists : string -> bool;                     (* os.path.exists *)
  basename : string -> string;                      (* os.path.basename *)
  splitext : string -> string * string;             (* os.path.splitext *)
  dirname : string -> string;                       (* os.path.dirname *)
  abspath : string -> string;                       (* os.path.abspath *)
  path_join : string -> string -> string;           (* os.path.join *)
  makedirs : string -> result unit;                 (* os.makedirs(_, exist_ok=True) *)
  subprocess_run : list string -> result string;
    (* subprocess.run(_, capture_output=True, text=True, check=True):
       the captured standard output, or the exception raised *)
  json_loads : string -> result json                (* json.loads *)
}.

(** ** Computations: a trace and an outcome *)

Definition M (A : Type) : Type := list event * result A.

Definition ret {A} (a : A) : M A := ([], Returned a).

Definition bind {A B} (m : M A) (k : A -> M B) : M B :=
  match m with
  | (t, Returned a) => let '(t', r) := k a in (t ++ t', r)
  | (t, Raised e) => (t, Raised e)
  end.

#[global] Instance M_ret : MRet M := @ret.
#[global] Instance M_bind : MBind M := fun A B k m => bind m k.

Definition print (m : message) : M unit := ([Console m], Returned tt).

(** Lift the outcome of a pure library call. *)
Definition lift {A} (r : result A) : M A := ([], r).

(** [try: body  except ...: handler]: the handler sees the exception and
    what had happened before it was raised stays in the trace. *)
Definition try_except {A} (body : M A) (handler : exn -> M A) : M A :=
  match body with
  | (t, Returned a) => (t, Returned a)
  | (t, Raised e) => let '(t', r) := handler e in (t ++ t', r)
  end.

Definition trace {A} (m : M A) : list event := m.1.
Definition outcome {A} (m : M A) : result A := m.2.

(** Truthiness of [e.stderr]: neither [None] nor empty. *)
Definition truthy (stderr : option string) : option string :=
  match stderr with
  | Some "" | None => None
  | Some s => Some s
  end.

(** What a block of the function hands on: control falls through with a
    value, or the block executed [return]. *)
Inductive flow (A : Type) : Type :=
  | Next (a : A)
  | Return_.
Arguments Next {A} a.
Arguments Return_ {A}.

Section Program.
Variable w : world.

Definition run (command : list string) : M string :=
  ([Run command], subprocess_run w command).

(** ** get_audio_stream_count *)

Definition ffprobe_command (filepath : string) : list string :=
  ["ffprobe"; "-v"; "quiet"; "-print_format"; "json"; "-show_streams";
   "-select_streams"; "a"; filepath].

(** Lines 25-27, the body of the [try]. *)
Definition inspect (filepath : string) : M Z :=
  stdout ← run (ffprobe_command filepath);
  streams_info ← lift (json_loads w stdout);
  streams ← lift (py_get streams_info "streams" (JArray []));
  lift (py_len streams).

(** Lines 28-41, the [except] clauses in their order. *)
Definition inspect_handler (e : exn) : M Z :=
  match e with
  | FileNotFoundError _ =>
      print MsgFfprobeMissing;; ret (-1)
  | CalledProcessError _ stderr =>
      print (MsgFfprobeFailed e);;
      match truthy stderr with
      | Some s => print (MsgFfprobeDetail s)
      | None => ret tt
      end;;
      ret (-1)
  | JSONDecodeError _ =>
      print MsgParseFailed;; ret (-1)
  | _ =>
      print (MsgInspectUnexpected e);; ret (-1)
  end.

Definition get_audio_stream_count (filepath : string) : M Z :=
  try_except (inspect filepath) inspect_handler.

(** ** extract_audio_tracks *)

(** Line 67. *)
Definition base_filename (mp4_filepath : string) : string :=
  (splitext w (basename w mp4_filepath)).1.

(** Line 84. *)
Definition output_filename (base_filename : string) (i : Z) : string :=
  base_filename +:+ "_track_" +:+ pretty i +:+ ".wav".

(** Lines 90-97. *)
Definition ffmpeg_command (mp4_filepath : string) (i : Z)
    (output_filepath : string) : list string :=
  ["ffmpeg"; "-y"; "-i"; mp4_filepath; "-map"; "0:a:" +:+ pretty i;
   "-c:a"; "pcm_s16le"; output_filepath].

Definition mkdir (dir : string) : M unit :=
  ([Makedirs dir], makedirs w dir).

(** Lines 69-79: the directory the files go to, or [Return_] when the
    function returns at line 79.  An exception of [os.makedirs] that is not
    an [OSError] is not caught. *)
Definition resolve_output_dir (mp4_filepath : string)
    (output_dir : option string) : M (flow string) :=
  match output_dir with
  | None => ret (Next (dirname w (abspath w mp4_filepath)))
  | Some output_dir =>
      if negb (path_exists w output_dir) then
        try_except
          (mkdir output_dir;;
           print (MsgDirCreated output_dir);;
           ret (Next output_dir))
          (fun e =>
             if is_OSError e then
               print (MsgDirFailed output_dir e);; ret Return_
             else lift (Raised e))
      else ret (Next output_dir)
  end.

(** Lines 84-118: one pass through the body of the [for] loop, from the
    current value of [successful_extractions] to the next one. *)
Definition extract_track (mp4_filepath output_dir base_filename : string)
    (i successful_extractions : Z) : M (flow Z) :=
  let output_filepath :=
    path_join w output_dir (output_filename base_filename i) in
  let command := ffmpeg_command mp4_filepath i output_filepath in
  print (MsgExtracting i output_filepath);;
  try_except
    (run command;;
     print (MsgTrackDone i);;
     ret (Next (successful_extractions + 1)))
    (fun e =>
       match e with
       | FileNotFoundError _ =>
           print MsgFfmpegMissing;; ret Return_
       | CalledProcessError _ stderr =>
           print (MsgTrackFailed i);;
           print (MsgCommand command);;
           match truthy stderr with
           | Some s => print (MsgFfmpegStderr s)
           | None => print (MsgErrorDetail e)
           end;;
           ret (Next successful_extractions)
       | _ =>
           print (MsgTrackUnexpected i e);;
           print (MsgCommand command);;
           ret (Next successful_extractions)
       end).

(** Line 83: [for i in indices], threading [successful_extractions]. *)
Fixpoint for_each (mp4_filepath output_dir base_filename : string)
    (indices : list Z) (successful_extractions : Z) : M (flow Z) :=
  match indices with
  | [] => ret (Next successful_extractions)
  | i :: rest =>
      step ← extract_track mp4_filepath output_dir base_filename i
               successful_extractions;
      match step with
      | Next successful_extractions =>
          for_each mp4_filepath output_dir base_filename rest
            successful_extractions
      | Return_ => ret Return_
      end
  end.

(** [range(n)]. *)
Definition range (n : Z) : list Z := seqZ 0 n.

(** Lines 121-128. *)
Definition report_summary (output_dir : string)
    (successful_extractions num_audio_tracks : Z) : M unit :=
  if bool_decide (successful_extractions = num_audio_tracks)
     && bool_decide (num_audio_tracks > 0) then
    print (MsgAllSucceeded successful_extractions);;
    print (MsgOutputDir (abspath w output_dir))
  else if bool_decide (successful_extractions > 0) then
    print (MsgPartial successful_extractions);;
    print (MsgOutputDir (abspath w output_dir))
  else if bool_decide (num_audio_tracks > 0) then
    print MsgAllFailed
  else ret tt.

Definition extract_audio_tracks (mp4_filepath : string)
    (output_dir : option string) : M unit :=
  if negb (isfile w mp4_filepath) then
    print (MsgInputNotFound mp4_filepath)
  else
    print (MsgProcessing mp4_filepath);;
    num_audio_tracks ← get_audio_stream_count mp4_filepath;
    if bool_decide (num_audio_tracks <= 0) then
      if bool_decide (num_audio_tracks = 0) then
        print (MsgNoTracks mp4_filepath)
      else ret tt
    else
      print (MsgTracksFound mp4_filepath num_audio_tracks);;
      let base_filename := base_filename mp4_filepath in
      resolved ← resolve_output_dir mp4_filepath output_dir;
      match resolved with
      | Return_ => ret tt
      | Next output_dir =>
          looped ← for_each mp4_filepath output_dir base_filename
                     (range num_audio_tracks) 0;
          match looped with
          | Return_ => ret tt
          | Next successful_extractions =>
              report_summary output_dir successful_extractions
                num_audio_tracks
          end
      end.

End Program.

(** ** Reading the world *)

(** The transcode invocation finds no ffmpeg binary. *)
Definition binary_missing (w : world) (command : list string) : bool :=
  match subprocess_run w command with
  | Raised e => is_FileNotFoundError e
  | Returned _ => false
  end.

(** The transcode invocation succeeds. *)
Definition transcodes (w : world) (command : list string) : bool :=
  match subprocess_run w command with
  | Returned _ => true
  | Raised _ => false
  end.

(** The directory the files of a run go to: the caller's when given, else
    the directory of the input file. *)
Definition resolved_dir (w : world) (mp4_filepath : string)
    (output_dir : option string) : string :=
  default (dirname w (abspath w mp4_filepath)) output_dir.

(** The directory step lets the run through: no directory was given, or it
    exists, or its creation succeeds. *)
Definition dir_ready (w : world) (output_dir : option string) : bool :=
  match output_dir with
  | None => true
  | Some dir =>
      path_exists w dir
      || match makedirs w dir with Returned _ => true | Raised _ => false end
  end.

(** The ffmpeg command of the pass for track [i] (lines 84-97). *)
Definition pass_command (w : world)
    (mp4_filepath output_dir base_filename : string) (i : Z) : list string :=
  ffmpeg_command mp4_filepath i
    (path_join w output_dir (output_filename base_filename i)).

(** The ffmpeg command of a run for track [i]. *)
Definition track_command (w : world) (mp4_filepath : string)
    (output_dir : option string) (i : Z) : list string :=
  pass_command w mp4_filepath (resolved_dir w mp4_filepath output_dir)
    (base_filename w mp4_filepath) i.

(** ** Reading a trace *)

Definition runs (t : list event) : list (list string) :=
  omap (fun ev => match ev with Run command => Some command | _ => None end) t.

(** The extraction attempts of a run: the ffmpeg invocations, in order. *)
Definition attempts (t : list event) : list (list string) :=
  filter (fun command => head command = Some "ffmpeg") (runs t).

Definition created (t : list event) : list string :=
  omap (fun ev => match ev with Makedirs dir => Some dir | _ => None end) t.

Definition reports (t : list event) : list message :=
  omap (fun ev => match ev with Console m => Some m | _ => None end) t.

(** The three reports of lines 122, 125 and 128. *)
Definition is_summary (m : message) : bool :=
  match m with
  | MsgAllSucceeded _ | MsgPartial _ | MsgAllFailed => true
  | _ => false
  end.

(** ** A scripted world, for running the model on concrete inputs

    POSIX-like paths under [/media]; the outcome of every subprocess is
    looked up in a script, and a command the script does not list finds no
    binary. *)
Definition scripted (script : list (list string * result string))
    (command : list string) : result string :=
  match list_find (fun entry => entry.1 = command) script with
  | Some (_, (_, r)) => r
  | None => Raised (FileNotFoundError "No such file or directory")
  end.

Definition studio (parsed : result json) (made : result unit)
    (script : list (list string * result string)) : world := {|
  isfile := fun p => bool_decide (p = "/media/movie.mp4");
  path_exists := fun p => bool_decide (p = "/media");
  basename := fun _ => "movie.mp4";
  splitext := fun _ => ("movie", ".mp4");
  dirname := fun _ => "/media";
  abspath := fun p => p;
  path_join := fun d f => d +:+ "/" +:+ f;
  makedirs := fun _ => made;
  subprocess_run := scripted script;
  json_loads := fun _ => parsed
|}.

Definition streams_of (n : nat) : json :=
  JObject {[ "streams" := JArray (replicate n (JObject ∅)) ]}.

Definition movie : string := "/media/movie.mp4".

(** Script entries for [movie]: the probe, and the transcode of track [i]
    into [dir]. *)
Definition probe_ok : list string * result string :=
  (ffprobe_command movie, Returned "{}").

Definition track (dir : string) (i : Z) (r : result string) :
    list string * result string :=
  (ffmpeg_command movie i (dir +:+ "/" +:+ output_filename "movie" i), r).

Definition exit_status_1 : exn :=
  CalledProcessError 1 (Some "Invalid data found when processing input").

Definition not_found : exn :=
  FileNotFoundError "No such file or directory: 'ffmpeg'".

(** Three streams, the second of which fails to transcode. *)
Definition studio_second_fails : world :=
  studio (Returned (streams_of 3)) (Returned tt)
    [probe_ok; track "/media" 0 (Returned "");
     track "/media" 1 (Raised exit_status_1);
     track "/media" 2 (Returned "")].

(** Three streams; ffmpeg disappears before the second transcode. *)
Definition studio_ffmpeg_vanishes : world :=
  studio (Returned (streams_of 3)) (Returned tt)
    [probe_ok; track "/media" 0 (Returned "");
     track "/media" 1 (Raised not_found);
     track "/media" 2 (Returned "")].

(** Two streams and a working ffmpeg, but [/out] cannot be created. *)
Definition studio_read_only : world :=
  studio (Returned (streams_of 2)) (Raised (OSError "Permission denied"))
    [probe_ok; track "/out" 0 (Returned ""); track "/out" 1 (Returned "")].

(** One stream; [/out] does not exist and is created. *)
Definition studio_fresh_dir : world :=
  studio (Returned (streams_of 1)) (Returned tt)
    [probe_ok; track "/out" 0 (Returned "")].




(** ** Progress reports *)

(** The index announced by a report of line 99. *)
Definition announced (m : message) : option Z :=
  match m with
  | MsgExtracting i _ => Some i
  | _ => None
  end.

(** The index completed by a report of line 103. *)
Definition completed (m : message) : option Z :=
  match m with
  | MsgTrackDone i => Some i
  | _ => None
  end.

(** The report of line 106. *)
Definition is_ffmpeg_missing (m : message) : bool :=
  match m with
  | MsgFfmpegMissing => true
  | _ => false
  end.

(** The indices a loop over [indices] gets to: all of them up to and
    including the first one whose attempt finds the binary missing. *)
Fixpoint until_missing (missing : Z -> bool) (indices : list Z) : list Z :=
  match indices with
  | [] => []
  | i :: rest => i :: (if missing i then [] else until_missing missing rest)
  end.

(** The number of extracted tracks a summary states (lines 122 and 125). *)
Definition summary_count (m : message) : option Z :=
  match m with
  | MsgAllSucceeded n | MsgPartial n => Some n
  | _ => None
  end.

(** ** The console output of a run *)

(** The part of the program a report comes from: what precedes the loop
    (lines 29-78), the loop (lines 99-118), the summary (lines 122-128). *)
Inductive phase : Type := Opening | Tracks | Closing.

Definition phase_of (m : message) : phase :=
  match m with
  | MsgExtracting _ _ | MsgTrackDone _ | MsgFfmpegMissing | MsgTrackFailed _
  | MsgCommand _ | MsgFfmpegStderr _ | MsgErrorDetail _
  | MsgTrackUnexpected _ _ => Tracks
  | MsgAllSucceeded _ | MsgPartial _ | MsgOutputDir _ | MsgAllFailed => Closing
  | _ => Opening
  end.

(** The reports of the pass of a run for track [i]. *)
Definition pass_reports (w : world) (mp4_filepath : string)
    (output_dir : option string) (i : Z) : list message :=
  reports
    (trace
       (extract_track w mp4_filepath (resolved_dir w mp4_filepath output_dir)
          (base_filename w mp4_filepath) i 0)).

(** The command line a report of line 110 or 118 shows. *)
Definition commanded (m : message) : option (list string) :=
  match m with
  | MsgCommand command => Some command
  | _ => None
  end.

(** The transcode invocation fails, the binary being there. *)
Definition fails (w : world) (command : list string) : bool :=
  match subprocess_run w command with
  | Raised e => negb (is_FileNotFoundError e)
  | Returned _ => false
  end.

(** * Properties *)

(** ** The computation monad *)

Lemma bind_returned {A B} (t : list event) (a : A) (k : A -> M B) :
  ((t, Returned a) ≫= k) = ((t ++ (k a).1), (k a).2).
Proof. unfold mbind, M_bind, bind. by destruct (k a). Qed.

Lemma bind_raised {A B} (t : list event) (e : exn) (k : A -> M B) :
  ((t, Raised e) ≫= k) = (t, Raised e).
Proof. reflexivity. Qed.

Lemma print_bind {B} (m : message) (k : unit -> M B) :
  (print m ≫= k) = (Console m :: (k tt).1, (k tt).2).
Proof. unfold print. by rewrite bind_returned. Qed.

(** ** Reading a trace *)

Lemma attempts_app (t1 t2 : list event) :
  attempts (t1 ++ t2) = attempts t1 ++ attempts t2.
Proof. unfold attempts, runs. by rewrite omap_app, filter_app. Qed.

Lemma created_app (t1 t2 : list event) :
  created (t1 ++ t2) = created t1 ++ created t2.
Proof. unfold created. by rewrite omap_app. Qed.

Lemma reports_app (t1 t2 : list event) :
  reports (t1 ++ t2) = reports t1 ++ reports t2.
Proof. unfold reports. by rewrite omap_app. Qed.

Lemma runs_prints (ms : list message) : runs (Console <$> ms) = [].
Proof. by induction ms. Qed.

Lemma attempts_prints (ms : list message) : attempts (Console <$> ms) = [].
Proof. unfold attempts. by rewrite runs_prints. Qed.

Lemma created_prints (ms : list message) : created (Console <$> ms) = [].
Proof. by induction ms. Qed.

Lemma reports_prints (ms : list message) : reports (Console <$> ms) = ms.
Proof. induction ms; simpl; by f_equal. Qed.

(** ** The stream inspector *)

(** The handler always ends the call with the sentinel, after at least one
    report. *)
Lemma inspect_handler_sentinel (e : exn) :
  ∃ m ms, inspect_handler e = (Console <$> (m :: ms), Returned (-1)).
Proof.
  destruct e as [?|?|rc [[|a s]|]|?|?|?|??];
    first [ by eexists _, []
          | by eexists _, [_] ].
Qed.

(** The [try] body either counts or raises, having run only the probe. *)
Lemma inspect_trace (w : world) (filepath : string) :
  trace (inspect w filepath) = [Run (ffprobe_command filepath)].
Proof.
  unfold inspect, run, lift, trace, mbind, M_bind, bind.
  by repeat case_match; simplify_eq/=.
Qed.

Lemma py_len_nonneg (v : json) (n : Z) : py_len v = Returned n → 0 ≤ n.
Proof. destruct v; simpl; intros; simplify_eq; lia. Qed.

Lemma inspect_nonneg (w : world) (filepath : string) (n : Z) :
  outcome (inspect w filepath) = Returned n → 0 ≤ n.
Proof.
  unfold inspect, run, lift, outcome, mbind, M_bind, bind.
  repeat case_match; simplify_eq/=; try done.
  intros. by eapply py_len_nonneg.
Qed.

Lemma get_audio_stream_count_cases (w : world) (filepath : string) :
  (∃ n, inspect w filepath = ([Run (ffprobe_command filepath)], Returned n)
        ∧ get_audio_stream_count w filepath
          = ([Run (ffprobe_command filepath)], Returned n)
        ∧ 0 ≤ n)
  ∨ (∃ e m ms,
        inspect w filepath = ([Run (ffprobe_command filepath)], Raised e)
        ∧ inspect_handler e = (Console <$> (m :: ms), Returned (-1))
        ∧ get_audio_stream_count w filepath
          = (Run (ffprobe_command filepath) :: (Console <$> (m :: ms)),
             Returned (-1))).
Proof.
  pose proof (inspect_trace w filepath) as Ht.
  pose proof (inspect_nonneg w filepath) as Hn.
  unfold get_audio_stream_count, try_except.
  destruct (inspect w filepath) as [t [n|e]]; simpl in *; subst t.
  - left. eauto.
  - right. destruct (inspect_handler_sentinel e) as (m & ms & Hh).
    exists e, m, ms. by rewrite Hh.
Qed.

(** Whatever happens, the inspector hands a number back. *)
Lemma get_audio_stream_count_total (w : world) (filepath : string) :
  ∃ n, outcome (get_audio_stream_count w filepath) = Returned n.
Proof.
  destruct (get_audio_stream_count_cases w filepath)
    as [(n & _ & Hc & _)|(e & m & ms & _ & _ & Hc)]; rewrite Hc; eauto.
Qed.

(** C5: [get_audio_stream_count] never lets an exception out: it returns a
    non-negative count or the sentinel [-1].  A count comes from a probe
    that succeeded and is the number of entries under ["streams"] of the
    parsed output.  Each of the four error conditions (probe binary not
    found, probe exit status not zero, output that does not parse, any other
    exception raised inside the [try]) returns [-1] after a console
    report. *)
Theorem get_audio_stream_count_contract (w : world) (filepath : string) :
  let probe := ffprobe_command filepath in
  let call := get_audio_stream_count w filepath in
  (∃ n, outcome call = Returned n ∧ (0 ≤ n ∨ n = -1))
  ∧ (∀ stdout members items,
       subprocess_run w probe = Returned stdout →
       json_loads w stdout = Returned (JObject members) →
       members !! "streams" = Some (JArray items) →
       call = ([Run probe], Returned (Z.of_nat (length items))))
  ∧ (∀ text,
       subprocess_run w probe = Raised (FileNotFoundError text) →
       call = ([Run probe; Console MsgFfprobeMissing], Returned (-1)))
  ∧ (∀ status stderr,
       subprocess_run w probe = Raised (CalledProcessError status stderr) →
       outcome call = Returned (-1)
       ∧ head (reports (trace call))
         = Some (MsgFfprobeFailed (CalledProcessError status stderr)))
  ∧ (∀ stdout text,
       subprocess_run w probe = Returned stdout →
       json_loads w stdout = Raised (JSONDecodeError text) →
       call = ([Run probe; Console MsgParseFailed], Returned (-1)))
  ∧ (∀ e,
       outcome (inspect w filepath) = Raised e →
       outcome call = Returned (-1) ∧ reports (trace call) ≠ []).
Proof.
  intros probe call. subst probe call.
  split; [|split; [|split; [|split; [|split]]]].
  - destruct (get_audio_stream_count_cases w filepath)
      as [(n & _ & Hc & Hn)|(e & m & ms & _ & _ & Hc)];
      rewrite Hc; simpl; eauto.
  - intros stdout members items Hrun Hjson Hget.
    unfold get_audio_stream_count, inspect, run, lift.
    rewrite Hrun. unfold mbind, M_bind, bind. simpl.
    rewrite Hjson. simpl. by rewrite Hget.
  - intros text Hrun.
    unfold get_audio_stream_count, inspect, run. by rewrite Hrun.
  - intros status stderr Hrun.
    unfold get_audio_stream_count, inspect, run. rewrite Hrun.
    by destruct stderr as [[|??]|].
  - intros stdout text Hrun Hjson.
    unfold get_audio_stream_count, inspect, run, lift.
    rewrite Hrun. unfold mbind, M_bind, bind. simpl. by rewrite Hjson.
  - intros e Hraised.
    destruct (get_audio_stream_count_cases w filepath)
      as [(n & Hi & _)|(e' & m & ms & _ & _ & Hc)].
    + by rewrite Hi in Hraised.
    + by rewrite Hc.
Qed.

Lemma get_audio_stream_count_contract_witness :
  get_audio_stream_count
    (studio (Returned (streams_of 2)) (Returned tt)
       [(ffprobe_command movie, Returned "{}")]) movie
  = ([Run (ffprobe_command movie)], Returned 2)
  ∧ get_audio_stream_count (studio (Returned JNull) (Returned tt) []) movie
    = ([Run (ffprobe_command movie); Console MsgFfprobeMissing], Returned (-1))
  ∧ outcome
      (get_audio_stream_count
         (studio (Returned JNull) (Returned tt)
            [(ffprobe_command movie,
              Raised (CalledProcessError 1 (Some "Invalid data")))]) movie)
    = Returned (-1)
  ∧ get_audio_stream_count
      (studio (Raised (JSONDecodeError "Expecting value")) (Returned tt)
         [(ffprobe_command movie, Returned "garbage")]) movie
    = ([Run (ffprobe_command movie); Console MsgParseFailed], Returned (-1))
  ∧ outcome
      (get_audio_stream_count
         (studio (Returned (JArray [])) (Returned tt)
            [(ffprobe_command movie, Returned "[]")]) movie)
    = Returned (-1).
Proof.
  split; [|split; [|split; [|split]]].
  - apply (get_audio_stream_count_contract
             (studio (Returned (streams_of 2)) (Returned tt)
                [(ffprobe_command movie, Returned "{}")]) movie)
      with (stdout := "{}") (members := {[ "streams" := JArray (replicate 2 (JObject ∅)) ]})
           (items := replicate 2 (JObject ∅)); reflexivity.
  - apply (get_audio_stream_count_contract
             (studio (Returned JNull) (Returned tt) []) movie)
      with (text := "No such file or directory"); reflexivity.
  - eapply (get_audio_stream_count_contract
             (studio (Returned JNull) (Returned tt)
                [(ffprobe_command movie,
                  Raised (CalledProcessError 1 (Some "Invalid data")))]) movie);
      reflexivity.
  - apply (get_audio_stream_count_contract
             (studio (Raised (JSONDecodeError "Expecting value")) (Returned tt)
                [(ffprobe_command movie, Returned "garbage")]) movie)
      with (stdout := "garbage") (text := "Expecting value"); reflexivity.
  - eapply (get_audio_stream_count_contract
             (studio (Returned (JArray [])) (Returned tt)
                [(ffprobe_command movie, Returned "[]")]) movie);
      reflexivity.
Defined.

Lemma get_audio_stream_count_quiet (w : world) (filepath : string) :
  attempts (trace (get_audio_stream_count w filepath)) = []
  ∧ created (trace (get_audio_stream_count w filepath)) = [].
Proof.
  destruct (get_audio_stream_count_cases w filepath)
    as [(n & _ & Hc & _)|(e & m & ms & _ & _ & Hc)]; rewrite Hc; [done|].
  unfold trace. cbn [fst].
  change (Run ?c :: ?t) with ([Run c] ++ t).
  by rewrite attempts_app, created_app, attempts_prints, created_prints.
Qed.

(** ** The track extractor: the early exits *)



(** What [extract_audio_tracks] does once the input exists and the
    inspector has answered [n]. *)
Lemma extract_audio_tracks_after_inspection (w : world)
    (mp4_filepath : string) (output_dir : option string) (n : Z) :
  isfile w mp4_filepath = true →
  outcome (get_audio_stream_count w mp4_filepath) = Returned n →
  extract_audio_tracks w mp4_filepath output_dir
  = (([Console (MsgProcessing mp4_filepath)]
      ++ trace (get_audio_stream_count w mp4_filepath), Returned tt)
     ≫= fun _ =>
       if bool_decide (n ≤ 0) then
         if bool_decide (n = 0) then print (MsgNoTracks mp4_filepath)
         else ret tt
       else
         print (MsgTracksFound mp4_filepath n);;
         resolved ← resolve_output_dir w mp4_filepath output_dir;
         match resolved with
         | Return_ => ret tt
         | Next output_dir =>
             looped ← for_each w mp4_filepath output_dir
                        (base_filename w mp4_filepath) (range n) 0;
             match looped with
             | Return_ => ret tt
             | Next successful_extractions =>
                 report_summary w output_dir successful_extractions n
             end
         end).
Proof.
  intros Hfile Hn. unfold extract_audio_tracks. rewrite Hfile. simpl negb.
  cbv iota. unfold outcome, trace in *.
  destruct (get_audio_stream_count w mp4_filepath) as [t r].
  simpl in Hn. subst r.
  rewrite print_bind. by rewrite !bind_returned.
Qed.

(** C8: when the inspector returns 0 the run reports that no track was
    found and returns; when it returns the sentinel the run returns without
    a report of its own after the inspector's.  In both cases there is no
    extraction attempt (so no output file) and no directory is created. *)
Theorem no_tracks_no_extraction (w : world) (mp4_filepath : string)
    (output_dir : option string) :
  isfile w mp4_filepath = true →
  let inspection := get_audio_stream_count w mp4_filepath in
  let call := extract_audio_tracks w mp4_filepath output_dir in
  (outcome inspection = Returned 0 →
     call = (Console (MsgProcessing mp4_filepath) :: trace inspection
               ++ [Console (MsgNoTracks mp4_filepath)], Returned tt)
     ∧ attempts (trace call) = [] ∧ created (trace call) = [])
  ∧ (outcome inspection = Returned (-1) →
     call = (Console (MsgProcessing mp4_filepath) :: trace inspection,
             Returned tt)
     ∧ attempts (trace call) = [] ∧ created (trace call) = []).
Proof.
  intros Hfile inspection call.
  destruct (get_audio_stream_count_quiet w mp4_filepath) as [Ha Hc].
  split; intros Hn; subst call;
    rewrite (extract_audio_tracks_after_inspection _ _ _ _ Hfile Hn);
    rewrite bind_returned; cbn [fst snd bool_decide decide_rel];
    (split; [simpl; by rewrite ?app_nil_r|]);
    subst inspection; unfold trace in *; cbn [fst];
    rewrite !attempts_app, !created_app, Ha, Hc; done.
Qed.

Lemma no_tracks_no_extraction_witness :
  extract_audio_tracks
    (studio (Returned (streams_of 0)) (Returned tt)
       [(ffprobe_command movie, Returned "{}")]) movie (Some "/out")
  = ([Console (MsgProcessing movie); Run (ffprobe_command movie);
      Console (MsgNoTracks movie)], Returned tt)
  ∧ extract_audio_tracks (studio (Returned JNull) (Returned tt) []) movie
      (Some "/out")
    = ([Console (MsgProcessing movie); Run (ffprobe_command movie);
        Console MsgFfprobeMissing], Returned tt).
Proof.
  split.
  - apply (no_tracks_no_extraction
             (studio (Returned (streams_of 0)) (Returned tt)
                [(ffprobe_command movie, Returned "{}")]) movie (Some "/out"));
      reflexivity.
  - apply (no_tracks_no_extraction
             (studio (Returned JNull) (Returned tt) []) movie (Some "/out"));
      reflexivity.
Defined.

(** C10: a probe that exits successfully and whose output parses to an
    object without a ["streams"] key makes [get_audio_stream_count] return
    0, not the sentinel; [extract_audio_tracks] then reports that no track
    was found and returns, having run nothing but the probe and created
    nothing. *)
Theorem missing_streams_key_counts_zero (w : world) (mp4_filepath : string)
    (output_dir : option string) (stdout : string)
    (members : gmap string json) :
  subprocess_run w (ffprobe_command mp4_filepath) = Returned stdout →
  json_loads w stdout = Returned (JObject members) →
  members !! "streams" = None →
  get_audio_stream_count w mp4_filepath
  = ([Run (ffprobe_command mp4_filepath)], Returned 0)
  ∧ (isfile w mp4_filepath = true →
     extract_audio_tracks w mp4_filepath output_dir
     = ([Console (MsgProcessing mp4_filepath);
         Run (ffprobe_command mp4_filepath);
         Console (MsgNoTracks mp4_filepath)], Returned tt)).
Proof.
  intros Hrun Hjson Hkey.
  assert (get_audio_stream_count w mp4_filepath
          = ([Run (ffprobe_command mp4_filepath)], Returned 0)) as Hcount.
  { unfold get_audio_stream_count, inspect, run, lift.
    rewrite Hrun. unfold mbind, M_bind, bind. simpl.
    rewrite Hjson. simpl. by rewrite Hkey. }
  split; [done|]. intros Hfile.
  rewrite (extract_audio_tracks_after_inspection _ _ _ 0 Hfile)
    by by rewrite Hcount.
  by rewrite Hcount.
Qed.

Lemma missing_streams_key_counts_zero_witness :
  get_audio_stream_count
    (studio (Returned (JObject {[ "programs" := JArray [] ]})) (Returned tt)
       [(ffprobe_command movie, Returned "{}")]) movie
  = ([Run (ffprobe_command movie)], Returned 0)
  ∧ extract_audio_tracks
      (studio (Returned (JObject {[ "programs" := JArray [] ]})) (Returned tt)
         [(ffprobe_command movie, Returned "{}")]) movie None
    = ([Console (MsgProcessing movie); Run (ffprobe_command movie);
        Console (MsgNoTracks movie)], Returned tt).
Proof.
  destruct (missing_streams_key_counts_zero
              (studio (Returned (JObject {[ "programs" := JArray [] ]}))
                 (Returned tt) [(ffprobe_command movie, Returned "{}")])
              movie None "{}" {[ "programs" := JArray [] ]})
    as [Hcount Hcall]; [reflexivity..|].
  split; [exact Hcount|]. apply Hcall. reflexivity.
Defined.

(** ** The loop over the tracks *)

Lemma attempts_pass (m : message) (mp4_filepath : string) (i : Z)
    (output_filepath : string) (ms : list message) :
  attempts (Console m :: Run (ffmpeg_command mp4_filepath i output_filepath)
              :: (Console <$> ms))
  = [ffmpeg_command mp4_filepath i output_filepath].
Proof.
  change (attempts ([Console m; Run (ffmpeg_command mp4_filepath i output_filepath)]
                    ++ (Console <$> ms)) = [ffmpeg_command mp4_filepath i output_filepath]).
  by rewrite attempts_app, attempts_prints.
Qed.

Lemma created_pass (m : message) (command : list string)
    (ms : list message) :
  created (Console m :: Run command :: (Console <$> ms)) = [].
Proof.
  change (created ([Console m; Run command] ++ (Console <$> ms)) = []).
  by rewrite created_app, created_prints.
Qed.

Lemma reports_pass (m : message) (command : list string)
    (ms : list message) :
  reports (Console m :: Run command :: (Console <$> ms)) = m :: ms.
Proof.
  change (reports ([Console m; Run command] ++ (Console <$> ms)) = m :: ms).
  by rewrite reports_app, reports_prints.
Qed.

Section Loop.
Context (w : world) (mp4_filepath output_dir base_filename : string).

Local Abbreviation command :=
  (pass_command w mp4_filepath output_dir base_filename).

(** One pass: the report of the attempt, the attempt, then reports only. *)
Lemma extract_track_cases (i successful_extractions : Z) :
  ∃ ms,
    extract_track w mp4_filepath output_dir base_filename i
      successful_extractions
    = (Console (MsgExtracting i
                (path_join w output_dir (output_filename base_filename i)))
         :: Run (command i) :: (Console <$> ms),
       Returned
         (if binary_missing w (command i) then Return_
          else Next (if transcodes w (command i)
                     then successful_extractions + 1
                     else successful_extractions)))
    ∧ filter is_summary ms = []
    ∧ (binary_missing w (command i) = true → ms = [MsgFfmpegMissing]).
Proof.
  unfold extract_track, binary_missing, transcodes, run. fold (command i).
  destruct (subprocess_run w (command i)) as [out|e].
  - by exists [MsgTrackDone i].
  - destruct e as [?|?|rc [[|a s]|]|?|?|?|??];
      first [ by eexists [_] | by eexists [_; _] | by eexists [_; _; _] ].
Qed.

(** When no attempt finds the binary missing, the loop attempts every index
    in order and counts the attempts that succeed. *)
Lemma for_each_complete (indices : list Z) (successful_extractions : Z) :
  Forall (fun i => binary_missing w (command i) = false) indices →
  ∃ t,
    for_each w mp4_filepath output_dir base_filename indices
      successful_extractions
    = (t, Returned
            (Next (successful_extractions
                   + Z.of_nat (length (filter (fun i => transcodes w (command i))
                                         indices)))))
    ∧ attempts t = command <$> indices
    ∧ created t = []
    ∧ filter is_summary (reports t) = [].
Proof.
  intros Hfound. revert successful_extractions.
  induction Hfound as [|i rest Hi _ IH]; intros s.
  - exists []. simpl. by rewrite Z.add_0_r.
  - destruct (extract_track_cases i s) as (ms & Hpass & Hms & _).
    rewrite Hi in Hpass. simpl for_each. rewrite Hpass, bind_returned.
    destruct (IH (if transcodes w (command i) then s + 1 else s))
      as (t & Hrest & Ha & Hc & Hr).
    rewrite Hrest. cbn [fst snd]. eexists. split.
    + f_equal. f_equal. f_equal.
      destruct (transcodes w (command i)) eqn:Hok.
      * rewrite filter_cons_True by by apply Is_true_true. simpl. lia.
      * rewrite filter_cons_False by by apply Is_true_false. lia.
    + rewrite attempts_app, created_app, reports_app, filter_app.
      rewrite Ha, Hc, Hr. unfold command at 1.
      rewrite attempts_pass, created_pass, reports_pass.
      rewrite filter_cons, Hms. by rewrite fmap_cons.
Qed.

(** When the attempt for [i] is the first to find the binary missing, the
    loop ends there, with the report of the missing binary as its last
    event. *)
Lemma for_each_halted (before : list Z) (i : Z) (after : list Z)
    (successful_extractions : Z) :
  Forall (fun j => binary_missing w (command j) = false) before →
  binary_missing w (command i) = true →
  ∃ t,
    for_each w mp4_filepath output_dir base_filename
      (before ++ i :: after) successful_extractions
    = (t ++ [Run (command i); Console MsgFfmpegMissing], Returned Return_)
    ∧ attempts t = command <$> before
    ∧ created t = []
    ∧ filter is_summary (reports t) = [].
Proof.
  intros Hfound Hi. revert successful_extractions.
  induction Hfound as [|j rest Hj _ IH]; intros s.
  - destruct (extract_track_cases i s) as (ms & Hpass & _ & Hms).
    rewrite Hi in Hpass. rewrite (Hms Hi) in Hpass.
    simpl. rewrite Hpass, bind_returned. by eexists [_].
  - destruct (extract_track_cases j s) as (ms & Hpass & Hms & _).
    rewrite Hj in Hpass. simpl app. simpl for_each.
    rewrite Hpass, bind_returned.
    destruct (IH (if transcodes w (command j) then s + 1 else s))
      as (t & Hrest & Ha & Hc & Hr).
    rewrite Hrest. cbn [fst snd]. eexists. split.
    + by rewrite app_assoc.
    + rewrite attempts_app, created_app, reports_app, filter_app.
      rewrite Ha, Hc, Hr. unfold command at 1.
      rewrite attempts_pass, created_pass, reports_pass.
      rewrite filter_cons, Hms. by rewrite fmap_cons.
Qed.
End Loop.

(** ** The output directory *)

Lemma resolve_output_dir_cases (w : world) (mp4_filepath : string)
    (output_dir : option string) :
  resolve_output_dir w mp4_filepath output_dir
  = match output_dir with
    | None => ([], Returned (Next (dirname w (abspath w mp4_filepath))))
    | Some dir =>
        if path_exists w dir then ([], Returned (Next dir))
        else
          match makedirs w dir with
          | Returned _ =>
              ([Makedirs dir; Console (MsgDirCreated dir)], Returned (Next dir))
          | Raised e =>
              if is_OSError e
              then ([Makedirs dir; Console (MsgDirFailed dir e)],
                    Returned Return_)
              else ([Makedirs dir], Raised e)
          end
    end.
Proof.
  destruct output_dir as [dir|]; [|done]. simpl.
  destruct (path_exists w dir); [done|]. simpl. unfold mkdir.
  destruct (makedirs w dir) as [[]|e]; [done|]. simpl.
  by destruct (is_OSError e).
Qed.

Lemma resolve_output_dir_ready (w : world) (mp4_filepath : string)
    (output_dir : option string) :
  dir_ready w output_dir = true →
  ∃ t,
    resolve_output_dir w mp4_filepath output_dir
    = (t, Returned (Next (resolved_dir w mp4_filepath output_dir)))
    ∧ attempts t = []
    ∧ filter is_summary (reports t) = [].
Proof.
  intros Hready. rewrite resolve_output_dir_cases.
  destruct output_dir as [dir|]; simpl in *; [|by exists []].
  destruct (path_exists w dir); [by exists []|].
  destruct (makedirs w dir) as [[]|e]; [|done]. by eexists.
Qed.

Lemma resolve_output_dir_unready (w : world) (mp4_filepath : string)
    (output_dir : option string) :
  dir_ready w output_dir = false →
  ∃ dir e,
    output_dir = Some dir ∧ path_exists w dir = false
    ∧ makedirs w dir = Raised e
    ∧ resolve_output_dir w mp4_filepath output_dir
      = if is_OSError e
        then ([Makedirs dir; Console (MsgDirFailed dir e)], Returned Return_)
        else ([Makedirs dir], Raised e).
Proof.
  intros Hready. rewrite resolve_output_dir_cases.
  destruct output_dir as [dir|]; simpl in *; [|done].
  destruct (path_exists w dir) eqn:Hexists; [done|].
  destruct (makedirs w dir) as [[]|e] eqn:Hmade; [done|]. by exists dir, e.
Qed.

(** ** Whole runs *)

(** A run reaches the loop: the input exists, the inspector counted [n > 0]
    streams and the directory step let the run through. *)
Lemma extract_audio_tracks_reaches_loop (w : world) (mp4_filepath : string)
    (output_dir : option string) (n : Z) :
  isfile w mp4_filepath = true →
  outcome (get_audio_stream_count w mp4_filepath) = Returned n →
  0 < n →
  dir_ready w output_dir = true →
  ∃ before,
    attempts before = []
    ∧ filter is_summary (reports before) = []
    ∧ extract_audio_tracks w mp4_filepath output_dir
      = ((before, Returned tt) ≫= fun _ =>
           looped ← for_each w mp4_filepath
                      (resolved_dir w mp4_filepath output_dir)
                      (base_filename w mp4_filepath) (range n) 0;
           match looped with
           | Return_ => ret tt
           | Next successful_extractions =>
               report_summary w (resolved_dir w mp4_filepath output_dir)
                 successful_extractions n
           end).
Proof.
  intros Hfile Hn Hpos Hready.
  rewrite (extract_audio_tracks_after_inspection _ _ _ _ Hfile Hn).
  destruct (resolve_output_dir_ready w mp4_filepath output_dir Hready)
    as (td & Hdir & Ha & Hr).
  destruct (get_audio_stream_count_cases w mp4_filepath)
    as [(n' & _ & Hc & _)|(e & m & ms & _ & Hh & Hc)];
    rewrite Hc in *; simpl in Hn; simplify_eq; [|lia].
  rewrite bool_decide_false by lia.
  rewrite bind_returned, print_bind, Hdir, bind_returned.
  exists ([Console (MsgProcessing mp4_filepath);
           Run (ffprobe_command mp4_filepath);
           Console (MsgTracksFound mp4_filepath n)] ++ td).
  split; [by rewrite attempts_app, Ha|].
  split; [by rewrite reports_app, filter_app, Hr|].
  rewrite bind_returned. cbn [fst snd trace].
  by rewrite <-!app_assoc.
Qed.

(** ** Names and commands tell the tracks apart *)




Lemma ffmpeg_command_inj (mp4_filepath : string) (i j : Z)
    (path_i path_j : string) :
  ffmpeg_command mp4_filepath i path_i = ffmpeg_command mp4_filepath j path_j →
  i = j.
Proof.
  unfold ffmpeg_command. intros Heq. by simplify_eq.
Qed.

Lemma track_command_inj (w : world) (mp4_filepath : string)
    (output_dir : option string) (i j : Z) :
  track_command w mp4_filepath output_dir i
  = track_command w mp4_filepath output_dir j → i = j.
Proof. apply ffmpeg_command_inj. Qed.

(** ** Where the loop stops *)

Lemma first_true_split (f : Z → bool) (l : list Z) :
  Forall (fun i => f i = false) l
  ∨ ∃ before i after,
      l = before ++ i :: after
      ∧ Forall (fun j => f j = false) before ∧ f i = true.
Proof.
  induction l as [|i l [IH|(before & k & after & -> & Hb & Hk)]].
  - by left.
  - destruct (f i) eqn:Hi.
    + right. by exists [], i, l.
    + left. by constructor.
  - destruct (f i) eqn:Hi.
    + right. by exists [], i, (before ++ k :: after).
    + right. exists (i :: before), k, after. split; [done|].
      split; [by constructor|done].
Qed.

Lemma range_split (n : Z) (before : list Z) (i : Z) (after : list Z) :
  range n = before ++ i :: after → 0 ≤ i < n ∧ before = range i.
Proof.
  unfold range. intros Hsplit.
  assert (seqZ 0 n !! length before = Some i) as Hi.
  { rewrite Hsplit. by apply list_lookup_middle. }
  apply lookup_seqZ in Hi as [Hi Hlt]. split; [lia|].
  assert (n = i + (n - i)) as Hn by lia.
  rewrite Hn, seqZ_app in Hsplit by lia.
  apply app_inj_1 in Hsplit as [Hb _]; [done|].
  rewrite length_seqZ. lia.
Qed.

(** ** The summary *)

Lemma report_summary_cases (w : world) (output_dir : string)
    (successful_extractions num_audio_tracks : Z) :
  0 < num_audio_tracks →
  0 ≤ successful_extractions ≤ num_audio_tracks →
  ∃ m rest,
    report_summary w output_dir successful_extractions num_audio_tracks
    = (Console m :: (Console <$> rest), Returned tt)
    ∧ is_summary m = true
    ∧ filter is_summary rest = []
    ∧ (successful_extractions = num_audio_tracks →
       m = MsgAllSucceeded successful_extractions)
    ∧ (0 < successful_extractions < num_audio_tracks →
       m = MsgPartial successful_extractions)
    ∧ (successful_extractions = 0 → m = MsgAllFailed).
Proof.
  intros Hn Hs. unfold report_summary.
  destruct (decide (successful_extractions = num_audio_tracks)) as [->|Hne].
  - rewrite !bool_decide_true by lia.
    eexists _, [_]. repeat split; try done; lia.
  - rewrite (bool_decide_false (_ = _)) by done. simpl andb. cbv iota.
    destruct (decide (successful_extractions > 0)).
    + rewrite bool_decide_true by done.
      eexists _, [_]. repeat split; try done; lia.
    + rewrite bool_decide_false by done. rewrite bool_decide_true by lia.
      eexists _, []. repeat split; try done; lia.
Qed.

(** ** The three shapes of a run *)

Lemma get_audio_stream_count_no_summary (w : world) (filepath : string) :
  filter is_summary (reports (trace (get_audio_stream_count w filepath))) = [].
Proof.
  pose proof (inspect_trace w filepath) as Ht.
  unfold get_audio_stream_count, try_except, trace in *.
  destruct (inspect w filepath) as [t [n|e]]; simpl in Ht; subst t; [done|].
  by destruct e as [?|?|rc [[|a s]|]|?|?|?|??].
Qed.

(** The number of tracks of a run whose transcode succeeds. *)
Lemma successes_bounds (w : world) (command : Z → list string) (n : Z) :
  0 ≤ n →
  0 ≤ Z.of_nat (length (filter (fun i => transcodes w (command i)) (range n)))
    ≤ n.
Proof.
  intros Hn. split; [lia|].
  pose proof (length_filter (fun i => transcodes w (command i)) (range n)) as Hle.
  unfold range in *. rewrite length_seqZ in Hle. lia.
Qed.

(** No attempt finds the binary missing: every track is attempted, then the
    summary is reported. *)
Lemma run_complete (w : world) (mp4_filepath : string)
    (output_dir : option string) (n : Z) :
  isfile w mp4_filepath = true →
  outcome (get_audio_stream_count w mp4_filepath) = Returned n →
  0 < n →
  dir_ready w output_dir = true →
  (∀ i, 0 ≤ i < n →
     binary_missing w (track_command w mp4_filepath output_dir i) = false) →
  ∃ before,
    extract_audio_tracks w mp4_filepath output_dir
    = (before
         ++ trace (report_summary w (resolved_dir w mp4_filepath output_dir)
                     (Z.of_nat
                        (length
                           (filter
                              (fun i => transcodes w
                                 (track_command w mp4_filepath output_dir i))
                              (range n)))) n),
       Returned tt)
    ∧ attempts before = track_command w mp4_filepath output_dir <$> range n
    ∧ filter is_summary (reports before) = [].
Proof.
  intros Hfile Hn Hpos Hready Hfound.
  destruct (extract_audio_tracks_reaches_loop _ _ _ _ Hfile Hn Hpos Hready)
    as (pre & Hpa & Hpr & ->).
  destruct (for_each_complete w mp4_filepath
              (resolved_dir w mp4_filepath output_dir)
              (base_filename w mp4_filepath) (range n) 0)
    as (tl & Hloop & Hla & _ & Hlr).
  { apply Forall_seqZ. intros i Hi. apply Hfound. lia. }
  rewrite bind_returned, Hloop, bind_returned. cbn [fst snd].
  destruct (report_summary_cases w (resolved_dir w mp4_filepath output_dir)
              (Z.of_nat
                 (length
                    (filter
                       (fun i => transcodes w
                          (track_command w mp4_filepath output_dir i))
                       (range n)))) n Hpos)
    as (m & rest & Hsum & _); [by apply successes_bounds; lia|].
  unfold track_command in *. rewrite Z.add_0_l, Hsum. cbn [fst snd trace].
  exists (pre ++ tl). split; [by rewrite <-app_assoc|].
  split; [by rewrite attempts_app, Hpa, Hla|].
  by rewrite reports_app, filter_app, Hpr, Hlr.
Qed.

(** The attempt for [i] is the first to find the binary missing: the run
    ends with that attempt and its report. *)
Lemma run_halted (w : world) (mp4_filepath : string)
    (output_dir : option string) (n i : Z) :
  isfile w mp4_filepath = true →
  outcome (get_audio_stream_count w mp4_filepath) = Returned n →
  dir_ready w output_dir = true →
  0 ≤ i < n →
  (∀ j, 0 ≤ j < i →
     binary_missing w (track_command w mp4_filepath output_dir j) = false) →
  binary_missing w (track_command w mp4_filepath output_dir i) = true →
  ∃ before,
    extract_audio_tracks w mp4_filepath output_dir
    = (before ++ [Run (track_command w mp4_filepath output_dir i);
                  Console MsgFfmpegMissing], Returned tt)
    ∧ attempts before = track_command w mp4_filepath output_dir <$> range i
    ∧ filter is_summary (reports before) = [].
Proof.
  intros Hfile Hn Hready Hi Hfound Hmissing.
  assert (0 < n) as Hpos by lia.
  destruct (extract_audio_tracks_reaches_loop _ _ _ _ Hfile Hn Hpos Hready)
    as (pre & Hpa & Hpr & ->).
  assert (range n = range i ++ i :: seqZ (i + 1) (n - i - 1)) as ->.
  { unfold range. replace n with (i + (1 + (n - i - 1))) at 1 by lia.
    rewrite seqZ_app by lia. f_equal. rewrite seqZ_app by lia.
    by rewrite (seqZ_cons _ 1), (seqZ_nil _ (Z.pred 1)) by lia. }
  destruct (for_each_halted w mp4_filepath
              (resolved_dir w mp4_filepath output_dir)
              (base_filename w mp4_filepath) (range i) i
              (seqZ (i + 1) (n - i - 1)) 0)
    as (tl & Hloop & Hla & _ & Hlr); [|done|].
  { apply Forall_seqZ. intros j Hj. apply Hfound. lia. }
  rewrite bind_returned, Hloop, bind_returned. cbn [fst snd].
  exists (pre ++ tl). split; [by rewrite app_nil_r, <-app_assoc|].
  split; [by rewrite attempts_app, Hpa, Hla|].
  by rewrite reports_app, filter_app, Hpr, Hlr.
Qed.

(** The run ends before the loop: the input is missing, the inspector did
    not count a positive number of streams, or the directory step stopped
    the run. *)
Lemma run_without_loop (w : world) (mp4_filepath : string)
    (output_dir : option string) :
  isfile w mp4_filepath = false
  ∨ (∃ n, outcome (get_audio_stream_count w mp4_filepath) = Returned n
          ∧ n ≤ 0)
  ∨ dir_ready w output_dir = false →
  attempts (trace (extract_audio_tracks w mp4_filepath output_dir)) = []
  ∧ filter is_summary
      (reports (trace (extract_audio_tracks w mp4_filepath output_dir))) = [].
Proof.
  destruct (isfile w mp4_filepath) eqn:Hfile; last first.
  { intros _. unfold extract_audio_tracks. by rewrite Hfile. }
  pose proof (get_audio_stream_count_quiet w mp4_filepath) as [Hqa _].
  pose proof (get_audio_stream_count_no_summary w mp4_filepath) as Hqr.
  destruct (get_audio_stream_count_cases w mp4_filepath)
    as [(n & _ & Hc & Hn)|(e & m & ms & _ & Hh & Hc)].
  - assert (outcome (get_audio_stream_count w mp4_filepath) = Returned n)
      as Hout by by rewrite Hc.
    rewrite (extract_audio_tracks_after_inspection _ _ _ _ Hfile Hout).
    rewrite Hc, bind_returned. unfold trace. cbn [fst].
    intros [?|[(n' & Hn' & Hle)|Hready]]; [done| |].
    + simpl in Hn'. simplify_eq. by assert (n' = 0) as -> by lia.
    + destruct (decide (n ≤ 0)) as [Hle|Hgt].
      { by assert (n = 0) as -> by lia. }
      rewrite bool_decide_false by done. rewrite print_bind.
      destruct (resolve_output_dir_unready w mp4_filepath output_dir Hready)
        as (dir & e & _ & _ & _ & ->).
      by destruct (is_OSError e).
  - assert (outcome (get_audio_stream_count w mp4_filepath) = Returned (-1))
      as Hout by by rewrite Hc.
    rewrite (extract_audio_tracks_after_inspection _ _ _ _ Hfile Hout).
    intros _. rewrite bind_returned. unfold trace in *. cbn [fst snd].
    rewrite bool_decide_true by lia. rewrite bool_decide_false by lia.
    cbn [fst snd ret]. rewrite app_nil_r.
    by rewrite attempts_app, reports_app, filter_app, Hqa, Hqr.
Qed.

(** The attempts of any run: none, or those of a run that reached the loop,
    which are all [n] of them or stop at the first attempt that finds the
    binary missing. *)
Lemma run_shapes (w : world) (mp4_filepath : string)
    (output_dir : option string) :
  let call := extract_audio_tracks w mp4_filepath output_dir in
  let command := track_command w mp4_filepath output_dir in
  (attempts (trace call) = [] ∧ filter is_summary (reports (trace call)) = [])
  ∨ ∃ n,
      isfile w mp4_filepath = true
      ∧ outcome (get_audio_stream_count w mp4_filepath) = Returned n
      ∧ 0 < n
      ∧ dir_ready w output_dir = true
      ∧ ((∀ i, 0 ≤ i < n → binary_missing w (command i) = false)
         ∨ ∃ k, 0 ≤ k < n
                ∧ (∀ j, 0 ≤ j < k → binary_missing w (command j) = false)
                ∧ binary_missing w (command k) = true).
Proof.
  intros call command.
  destruct (isfile w mp4_filepath) eqn:Hfile; last first.
  { left. apply run_without_loop. by left. }
  destruct (get_audio_stream_count_total w mp4_filepath) as [n Hn].
  destruct (decide (n ≤ 0)) as [Hle|Hpos].
  { left. apply run_without_loop. right. left. eauto. }
  destruct (dir_ready w output_dir) eqn:Hready; last first.
  { left. apply run_without_loop. by right; right. }
  right. exists n. repeat (split; [done || lia|]).
  destruct (first_true_split (fun i => binary_missing w (command i)) (range n))
    as [Hall|(before & k & after & Hsplit & Hbefore & Hk)].
  - left. intros i Hi. eapply Forall_seqZ in Hall; [done|lia].
  - right. apply range_split in Hsplit as [Hk' ->].
    exists k. repeat (split; [done|]). split; [|done].
    intros j Hj. eapply Forall_seqZ in Hbefore; [done|lia].
Qed.

Lemma attempts_summary (w : world) (output_dir : string)
    (successful_extractions num_audio_tracks : Z) :
  attempts
    (trace (report_summary w output_dir successful_extractions
              num_audio_tracks)) = [].
Proof.
  unfold report_summary. by repeat case_match.
Qed.

(** The attempts of a run that reached the loop, by where the loop stops. *)
Lemma attempts_complete (w : world) (mp4_filepath : string)
    (output_dir : option string) (n : Z) :
  isfile w mp4_filepath = true →
  outcome (get_audio_stream_count w mp4_filepath) = Returned n →
  0 < n →
  dir_ready w output_dir = true →
  (∀ i, 0 ≤ i < n →
     binary_missing w (track_command w mp4_filepath output_dir i) = false) →
  attempts (trace (extract_audio_tracks w mp4_filepath output_dir))
  = track_command w mp4_filepath output_dir <$> range n.
Proof.
  intros Hfile Hn Hpos Hready Hfound.
  destruct (run_complete _ _ _ _ Hfile Hn Hpos Hready Hfound)
    as (before & -> & Ha & _).
  change (trace (?t, ?r)) with t.
  by rewrite attempts_app, Ha, (attempts_summary w), app_nil_r.
Qed.

Lemma attempts_halted (w : world) (mp4_filepath : string)
    (output_dir : option string) (n k : Z) :
  isfile w mp4_filepath = true →
  outcome (get_audio_stream_count w mp4_filepath) = Returned n →
  dir_ready w output_dir = true →
  0 ≤ k < n →
  (∀ j, 0 ≤ j < k →
     binary_missing w (track_command w mp4_filepath output_dir j) = false) →
  binary_missing w (track_command w mp4_filepath output_dir k) = true →
  attempts (trace (extract_audio_tracks w mp4_filepath output_dir))
  = track_command w mp4_filepath output_dir <$> range (k + 1).
Proof.
  intros Hfile Hn Hready Hk Hfound Hmissing.
  destruct (run_halted _ _ _ _ _ Hfile Hn Hready Hk Hfound Hmissing)
    as (before & -> & Ha & _).
  change (trace (?t, ?r)) with t. unfold range.
  rewrite attempts_app, Ha, seqZ_app, fmap_app by lia.
  by rewrite (seqZ_cons _ 1), (seqZ_nil _ (Z.pred 1)) by lia.
Qed.

Lemma elem_of_track_commands (w : world) (mp4_filepath : string)
    (output_dir : option string) (i n : Z) :
  track_command w mp4_filepath output_dir i
    ∈ track_command w mp4_filepath output_dir <$> range n
  ↔ 0 ≤ i < n.
Proof.
  rewrite list_elem_of_fmap. unfold range. split.
  - intros (j & Heq & Hj). apply track_command_inj in Heq as ->.
    apply elem_of_seqZ in Hj. lia.
  - intros Hi. exists i. split; [done|]. apply elem_of_seqZ. lia.
Qed.

(** ** The track extractor: the loop *)




(** C2: in a run whose inspector counted [n] streams, when the attempt for
    track [i < n-1] is made and fails with anything but a missing ffmpeg
    binary (a non-zero exit status or any other exception), the attempt for
    track [i+1] is made as well; the pass through the loop for [i] falls
    through to the next index and leaves [successful_extractions] as it
    was. *)
Theorem failed_track_does_not_stop_the_batch (w : world)
    (mp4_filepath : string) (output_dir : option string) (n i : Z) (e : exn) :
  let call := extract_audio_tracks w mp4_filepath output_dir in
  let command := track_command w mp4_filepath output_dir in
  outcome (get_audio_stream_count w mp4_filepath) = Returned n →
  i < n - 1 →
  command i ∈ attempts (trace call) →
  subprocess_run w (command i) = Raised e →
  is_FileNotFoundError e = false →
  command (i + 1) ∈ attempts (trace call)
  ∧ ∀ successful_extractions,
      outcome
        (extract_track w mp4_filepath
           (resolved_dir w mp4_filepath output_dir)
           (base_filename w mp4_filepath) i successful_extractions)
      = Returned (Next successful_extractions).
Proof.
  intros call command Hn Hi Hmade Hraised Hclass.
  assert (binary_missing w (command i) = false) as Hfound.
  { unfold binary_missing. by rewrite Hraised. }
  split.
  - destruct (run_shapes w mp4_filepath output_dir)
      as [[Hnone _]|(n' & Hfile & Hn' & Hpos & Hready & Hstop)].
    { fold call in Hnone. rewrite Hnone in Hmade. by apply elem_of_nil in Hmade. }
    rewrite Hn in Hn'. injection Hn' as <-.
    destruct Hstop as [Hall|(k & Hk & Hbefore & Hmissing)]; subst call command.
    + rewrite (attempts_complete _ _ _ _ Hfile Hn Hpos Hready Hall) in *.
      apply elem_of_track_commands in Hmade.
      apply elem_of_track_commands. lia.
    + rewrite (attempts_halted _ _ _ _ _ Hfile Hn Hready Hk Hbefore Hmissing)
        in *.
      apply elem_of_track_commands in Hmade.
      apply elem_of_track_commands.
      assert (i ≠ k) by (intros ->; congruence). lia.
  - intros s.
    destruct (extract_track_cases w mp4_filepath
                (resolved_dir w mp4_filepath output_dir)
                (base_filename w mp4_filepath) i s) as (ms & -> & _).
    fold (track_command w mp4_filepath output_dir i). fold (command i).
    rewrite Hfound. unfold transcodes. by rewrite Hraised.
Qed.

Lemma failed_track_does_not_stop_the_batch_witness :
  track_command studio_second_fails movie None 2
    ∈ attempts (trace (extract_audio_tracks studio_second_fails movie None)).
Proof.
  apply (failed_track_does_not_stop_the_batch studio_second_fails movie None
           3 1 exit_status_1); try reflexivity.
  vm_compute. apply list_elem_of_further, list_elem_of_here.
Defined.

(** C3: when the attempt for track [i] is made and finds no ffmpeg binary,
    no attempt is made for any index above [i]: the attempts of the run are
    those for [0 .. i], and the run ends there, its last two events being
    that attempt and the report of the missing binary, after which the
    function returns. *)
Theorem missing_ffmpeg_halts_the_run (w : world) (mp4_filepath : string)
    (output_dir : option string) (i : Z) (text : string) :
  let call := extract_audio_tracks w mp4_filepath output_dir in
  let command := track_command w mp4_filepath output_dir in
  command i ∈ attempts (trace call) →
  subprocess_run w (command i) = Raised (FileNotFoundError text) →
  (∀ j, i < j → command j ∉ attempts (trace call))
  ∧ attempts (trace call) = command <$> range (i + 1)
  ∧ ∃ before,
      call = (before ++ [Run (command i); Console MsgFfmpegMissing],
              Returned tt).
Proof.
  intros call command Hmade Hraised.
  assert (binary_missing w (command i) = true) as Hi.
  { unfold binary_missing. by rewrite Hraised. }
  destruct (run_shapes w mp4_filepath output_dir)
    as [[Hnone _]|(n & Hfile & Hn & Hpos & Hready & Hstop)].
  { fold call in Hnone. rewrite Hnone in Hmade. by apply elem_of_nil in Hmade. }
  assert (0 ≤ i < n
          ∧ ∀ j, 0 ≤ j < i → binary_missing w (command j) = false)
    as [Hrange Hbefore].
  { destruct Hstop as [Hall|(k & Hk & Hbefore & Hmissing)]; subst call command.
    - rewrite (attempts_complete _ _ _ _ Hfile Hn Hpos Hready Hall) in Hmade.
      apply elem_of_track_commands in Hmade. rewrite Hall in Hi by done. done.
    - rewrite (attempts_halted _ _ _ _ _ Hfile Hn Hready Hk Hbefore Hmissing)
        in Hmade.
      apply elem_of_track_commands in Hmade.
      destruct (decide (i = k)) as [->|Hne]; [done|].
      rewrite Hbefore in Hi by lia. done. }
  subst call command.
  rewrite (attempts_halted _ _ _ _ _ Hfile Hn Hready Hrange Hbefore Hi).
  split; [|split; [done|]].
  - intros j Hj Hin. apply elem_of_track_commands in Hin. lia.
  - destruct (run_halted _ _ _ _ _ Hfile Hn Hready Hrange Hbefore Hi)
      as (before & -> & _). by exists before.
Qed.

Lemma missing_ffmpeg_halts_the_run_witness :
  attempts (trace (extract_audio_tracks studio_ffmpeg_vanishes movie None))
  = track_command studio_ffmpeg_vanishes movie None <$> range 2.
Proof.
  apply (missing_ffmpeg_halts_the_run studio_ffmpeg_vanishes movie None 1
           "No such file or directory: 'ffmpeg'"); [|reflexivity].
  vm_compute. apply list_elem_of_further, list_elem_of_here.
Defined.

(** ** The track extractor: the output directory *)



(** ** The track extractor: the summary *)




(** ** The track extractor: how a call ends *)




(** ** Two runs, traced in full *)

(** [movie.mp4] with three streams, the second of which exits non-zero, and
    no output directory given: three attempts into the directory of the
    input and the partial summary with two successes. *)
Example second_of_three_fails :
  extract_audio_tracks studio_second_fails movie None
  = ([Console (MsgProcessing movie);
      Run (ffprobe_command movie);
      Console (MsgTracksFound movie 3);
      Console (MsgExtracting 0 "/media/movie_track_0.wav");
      Run (ffmpeg_command movie 0 "/media/movie_track_0.wav");
      Console (MsgTrackDone 0);
      Console (MsgExtracting 1 "/media/movie_track_1.wav");
      Run (ffmpeg_command movie 1 "/media/movie_track_1.wav");
      Console (MsgTrackFailed 1);
      Console (MsgCommand (ffmpeg_command movie 1 "/media/movie_track_1.wav"));
      Console (MsgFfmpegStderr "Invalid data found when processing input");
      Console (MsgExtracting 2 "/media/movie_track_2.wav");
      Run (ffmpeg_command movie 2 "/media/movie_track_2.wav");
      Console (MsgTrackDone 2);
      Console (MsgPartial 2);
      Console (MsgOutputDir "/media")],
     Returned tt).
Proof. reflexivity. Qed.

(** The same input when [/out] is asked for and cannot be created. *)
Example out_cannot_be_created :
  extract_audio_tracks studio_read_only movie (Some "/out")
  = ([Console (MsgProcessing movie);
      Run (ffprobe_command movie);
      Console (MsgTracksFound movie 2);
      Makedirs "/out";
      Console (MsgDirFailed "/out" (OSError "Permission denied"))],
     Returned tt).
Proof. reflexivity. Qed.

(** * Further properties of a run *)

(** ** Traces of composed computations *)

Lemma trace_bind {A B} (m : M A) (k : A -> M B) :
  trace (m ≫= k)
  = trace m ++ match outcome m with
               | Returned a => trace (k a)
               | Raised _ => []
               end.
Proof.
  destruct m as [t [a|e]]; unfold trace, outcome; cbn [fst snd].
  - by rewrite bind_returned.
  - by rewrite bind_raised, app_nil_r.
Qed.

Lemma outcome_bind {A B} (m : M A) (k : A -> M B) :
  outcome (m ≫= k)
  = match outcome m with
    | Returned a => outcome (k a)
    | Raised e => Raised e
    end.
Proof.
  destruct m as [t [a|e]]; unfold outcome; cbn [fst snd].
  - by rewrite bind_returned.
  - by rewrite bind_raised.
Qed.

Lemma runs_app (t1 t2 : list event) : runs (t1 ++ t2) = runs t1 ++ runs t2.
Proof. unfold runs. by rewrite omap_app. Qed.

(** The trace of a run that got a positive count from the inspector:
    the inspection, the directory step, the loop, the summary. *)
Lemma extract_audio_tracks_trace (w : world) (mp4_filepath : string)
    (output_dir : option string) (n : Z) :
  isfile w mp4_filepath = true →
  outcome (get_audio_stream_count w mp4_filepath) = Returned n →
  0 < n →
  trace (extract_audio_tracks w mp4_filepath output_dir)
  = Console (MsgProcessing mp4_filepath)
      :: trace (get_audio_stream_count w mp4_filepath)
      ++ Console (MsgTracksFound mp4_filepath n)
      :: trace (resolve_output_dir w mp4_filepath output_dir)
      ++ match outcome (resolve_output_dir w mp4_filepath output_dir) with
         | Returned (Next dir) =>
             trace (for_each w mp4_filepath dir (base_filename w mp4_filepath)
                      (range n) 0)
             ++ match outcome (for_each w mp4_filepath dir
                                 (base_filename w mp4_filepath) (range n) 0)
                with
                | Returned (Next successful_extractions) =>
                    trace (report_summary w dir successful_extractions n)
                | _ => []
                end
         | _ => []
         end.
Proof.
  intros Hfile Hn Hpos.
  rewrite (extract_audio_tracks_after_inspection _ _ _ _ Hfile Hn).
  rewrite trace_bind. change (trace (?t, ?r)) with t.
  change (outcome (?t, ?r)) with r. cbv iota beta.
  rewrite bool_decide_false by lia. rewrite !trace_bind.
  cbn [app]. f_equal. f_equal.
  change (trace (print ?m)) with [Console m].
  change (outcome (print ?m)) with (Returned tt). cbv iota beta. cbn [app].
  f_equal. f_equal.
  destruct (outcome (resolve_output_dir w mp4_filepath output_dir))
    as [[dir|]|e]; [|done..].
  rewrite trace_bind. f_equal.
  by destruct (outcome (for_each _ _ _ _ _ _)) as [[s|]|e].
Qed.

(** ** Where the loop gets to *)

Lemma until_missing_all (missing : Z → bool) (indices : list Z) :
  Forall (fun i => missing i = false) indices →
  until_missing missing indices = indices.
Proof.
  induction 1 as [|i rest Hi _ IH]; simpl; [done|]. by rewrite Hi, IH.
Qed.

Lemma until_missing_first (missing : Z → bool) (before : list Z) (i : Z)
    (after : list Z) :
  Forall (fun j => missing j = false) before →
  missing i = true →
  until_missing missing (before ++ i :: after) = before ++ [i].
Proof.
  intros Hbefore Hi.
  induction Hbefore as [|j rest Hj _ IH]; simpl.
  - by rewrite Hi.
  - by rewrite Hj, IH.
Qed.

(** ** Progress through the loop *)

Section Progress.
Context (w : world) (mp4_filepath output_dir base_filename : string).

Local Abbreviation command :=
  (pass_command w mp4_filepath output_dir base_filename).
Local Abbreviation missing := (fun i => binary_missing w (command i)).

(** What one pass leaves in the trace. *)
Lemma extract_track_progress (i successful_extractions : Z) :
  let pass := extract_track w mp4_filepath output_dir base_filename i
                successful_extractions in
  runs (trace pass) = [command i]
  ∧ attempts (trace pass) = [command i]
  ∧ created (trace pass) = []
  ∧ omap announced (reports (trace pass)) = [i]
  ∧ omap completed (reports (trace pass))
    = (if transcodes w (command i) then [i] else [])
  ∧ filter is_ffmpeg_missing (reports (trace pass))
    = (if missing i then [MsgFfmpegMissing] else [])
  ∧ outcome pass
    = Returned (if missing i then Return_
                else Next (if transcodes w (command i)
                           then successful_extractions + 1
                           else successful_extractions)).
Proof.
  unfold extract_track, binary_missing, transcodes, run. fold (command i).
  destruct (subprocess_run w (command i)) as [out|e]; [done|].
  by destruct e as [?|?|rc [[|a s]|]|?|?|?|??].
Qed.

(** The loop attempts the indices of [until_missing] and nothing else,
    announces each of them and reports done the ones that succeed. *)
Lemma for_each_progress (indices : list Z) (successful_extractions : Z) :
  let loop := for_each w mp4_filepath output_dir base_filename indices
                successful_extractions in
  let reached := until_missing missing indices in
  runs (trace loop) = command <$> reached
  ∧ attempts (trace loop) = command <$> reached
  ∧ created (trace loop) = []
  ∧ omap announced (reports (trace loop)) = reached
  ∧ omap completed (reports (trace loop))
    = filter (fun i => transcodes w (command i)) reached
  ∧ filter is_ffmpeg_missing (reports (trace loop))
    = (if existsb missing reached then [MsgFfmpegMissing] else []).
Proof.
  revert successful_extractions.
  induction indices as [|i rest IH]; intros s; [done|].
  destruct (extract_track_progress i s)
    as (Hruns & Hattempts & Hcreated & Hann & Hdone & Hmiss & Hout).
  cbn zeta. simpl for_each. rewrite trace_bind, Hout.
  rewrite runs_app, attempts_app, created_app, reports_app.
  rewrite !omap_app, filter_app, Hruns, Hattempts, Hcreated, Hann, Hdone, Hmiss.
  simpl until_missing. destruct (missing i) eqn:Hi.
  - change (trace (ret ?a)) with (@nil event). simpl existsb.
    rewrite Hi. simpl.
    destruct (transcodes w (command i)) eqn:Hok.
    + rewrite filter_cons_True by by apply Is_true_true. by rewrite !app_nil_r.
    + rewrite filter_cons_False by by apply Is_true_false.
      by rewrite !app_nil_r.
  - destruct (IH (if transcodes w (command i) then s + 1 else s))
      as (-> & -> & -> & -> & -> & ->).
    simpl existsb. rewrite Hi. simpl.
    destruct (transcodes w (command i)) eqn:Hok.
    + by rewrite filter_cons_True by by apply Is_true_true.
    + by rewrite filter_cons_False by by apply Is_true_false.
Qed.
End Progress.

(** The indices reached in [range n] are a range themselves. *)
Lemma until_missing_range (missing : Z → bool) (n : Z) :
  ∃ k, 0 ≤ k ≤ Z.max 0 n
       ∧ until_missing missing (range n) = range k
       ∧ (∀ j, 0 ≤ j < k - 1 → missing j = false)
       ∧ (k < n → 0 < k ∧ missing (k - 1) = true).
Proof.
  destruct (first_true_split missing (range n))
    as [Hall|(before & i & after & Hsplit & Hbefore & Hi)].
  - destruct (decide (0 < n)) as [Hpos|Hneg].
    + exists n. split; [lia|]. split; [|split; [|lia]].
      * by apply until_missing_all.
      * intros j Hj. eapply Forall_seqZ in Hall; [done|lia].
    + exists 0. unfold range. rewrite !seqZ_nil by lia.
      split; [lia|]. split; [done|]. split; intros; lia.
  - pose proof Hsplit as Hrange. apply range_split in Hrange as [Hi' ->].
    exists (i + 1). split; [lia|]. rewrite Hsplit.
    split; [|split].
    + rewrite until_missing_first by done.
      unfold range. rewrite seqZ_app by lia. by f_equal.
    + intros j Hj. eapply Forall_seqZ in Hbefore; [done|lia].
    + intros _. split; [lia|]. by replace (i + 1 - 1) with i by lia.
Qed.

(** ** What the other steps leave in the trace *)

Lemma get_audio_stream_count_progress (w : world) (filepath : string) :
  let t := trace (get_audio_stream_count w filepath) in
  runs t = [ffprobe_command filepath]
  ∧ omap announced (reports t) = []
  ∧ omap completed (reports t) = []
  ∧ filter is_ffmpeg_missing (reports t) = [].
Proof.
  pose proof (inspect_trace w filepath) as Ht.
  unfold get_audio_stream_count, try_except, trace in *.
  destruct (inspect w filepath) as [t [n|e]]; simpl in Ht; subst t; [done|].
  by destruct e as [?|?|rc [[|a s]|]|?|?|?|??].
Qed.

Lemma resolve_output_dir_progress (w : world) (mp4_filepath : string)
    (output_dir : option string) :
  let step := resolve_output_dir w mp4_filepath output_dir in
  runs (trace step) = []
  ∧ created (trace step)
    = match output_dir with
      | Some dir => if path_exists w dir then [] else [dir]
      | None => []
      end
  ∧ omap announced (reports (trace step)) = []
  ∧ omap completed (reports (trace step)) = []
  ∧ filter is_ffmpeg_missing (reports (trace step)) = []
  ∧ ∀ dir, outcome step = Returned (Next dir) →
           dir = resolved_dir w mp4_filepath output_dir.
Proof.
  cbn zeta. rewrite resolve_output_dir_cases.
  destruct output_dir as [dir|]; [|by split_and!; [..|intros ? [= <-]]].
  destruct (path_exists w dir); [by split_and!; [..|intros ? [= <-]]|].
  destruct (makedirs w dir) as [[]|e];
    [by split_and!; [..|intros ? [= <-]]|].
  by destruct (is_OSError e).
Qed.

Lemma report_summary_progress (w : world) (output_dir : string)
    (successful_extractions num_audio_tracks : Z) :
  let t := trace (report_summary w output_dir successful_extractions
                    num_audio_tracks) in
  runs t = [] ∧ created t = []
  ∧ omap announced (reports t) = []
  ∧ omap completed (reports t) = []
  ∧ filter is_ffmpeg_missing (reports t) = [].
Proof. unfold report_summary. by repeat case_match. Qed.

(** ** Every run, read from its trace *)

(** Any run attempts the tracks [0 .. k-1] for some [k], and its trace says
    so: the subprocesses it runs, the directory it creates and its progress
    reports are determined by [k]. *)
Lemma run_progress (w : world) (mp4_filepath : string)
    (output_dir : option string) :
  let t := trace (extract_audio_tracks w mp4_filepath output_dir) in
  let command := track_command w mp4_filepath output_dir in
  let missing := fun i => binary_missing w (command i) in
  ∃ k,
    0 ≤ k
    ∧ (∀ j, 0 ≤ j < k - 1 → missing j = false)
    ∧ (∀ n, outcome (get_audio_stream_count w mp4_filepath) = Returned n →
         k ≤ Z.max 0 n
         ∧ (isfile w mp4_filepath = true → 0 < n →
            dir_ready w output_dir = true →
            0 < k ∧ (k < n → missing (k - 1) = true))
         ∧ created t
           = if isfile w mp4_filepath && bool_decide (0 < n)
             then match output_dir with
                  | Some dir => if path_exists w dir then [] else [dir]
                  | None => []
                  end
             else [])
    ∧ runs t
      = (if isfile w mp4_filepath then [ffprobe_command mp4_filepath] else [])
        ++ (command <$> range k)
    ∧ attempts t = command <$> range k
    ∧ omap announced (reports t) = range k
    ∧ omap completed (reports t)
      = filter (fun i => transcodes w (command i)) (range k)
    ∧ filter is_ffmpeg_missing (reports t)
      = (if existsb missing (range k) then [MsgFfmpegMissing] else []).
Proof.
  intros t command missing. subst t command missing.
  unfold track_command.
  destruct (isfile w mp4_filepath) eqn:Hfile; last first.
  { exists 0. unfold extract_audio_tracks. rewrite Hfile.
    split_and!; try done; [intros; lia|].
    intros n _. split_and!; try done; lia. }
  destruct (get_audio_stream_count_total w mp4_filepath) as [n Hn].
  destruct (get_audio_stream_count_progress w mp4_filepath)
    as (Hpr & Hpa & Hpc & Hpm).
  destruct (get_audio_stream_count_quiet w mp4_filepath) as [Hqa Hqc].
  destruct (decide (n ≤ 0)) as [Hle|Hpos].
  { exists 0.
    assert (trace (extract_audio_tracks w mp4_filepath output_dir)
            = Console (MsgProcessing mp4_filepath)
                :: trace (get_audio_stream_count w mp4_filepath)
                ++ (if bool_decide (n = 0)
                    then [Console (MsgNoTracks mp4_filepath)] else []))
      as ->.
    { rewrite (extract_audio_tracks_after_inspection _ _ _ _ Hfile Hn).
      rewrite trace_bind. change (trace (?t, ?r)) with t.
      change (outcome (?t, ?r)) with r. cbv iota beta.
      rewrite bool_decide_true by done. cbn [app]. f_equal. f_equal.
      by destruct (bool_decide (n = 0)). }
    change (?a :: ?t ++ ?u) with ([a] ++ t ++ u).
    rewrite !runs_app, !attempts_app, !created_app, !reports_app, !omap_app,
      !filter_app, Hpr, Hpa, Hpc, Hpm, Hqa, Hqc.
    split_and!; try done; try (by destruct (bool_decide (n = 0)));
      [intros; lia|].
    intros n' Hn'. rewrite Hn in Hn'. injection Hn' as <-.
    rewrite (bool_decide_false (0 < n)) by lia.
    split_and!; [lia|intros; lia|by destruct (bool_decide (n = 0))]. }
  rewrite (extract_audio_tracks_trace _ _ _ _ Hfile Hn) by lia.
  destruct (resolve_output_dir_progress w mp4_filepath output_dir)
    as (Hdr & Hdc & Hda & Hdd & Hdm & Hdir).
  change (?a :: ?t ++ ?b :: ?u ++ ?v) with ([a] ++ t ++ [b] ++ u ++ v).
  rewrite !runs_app, !attempts_app, !created_app, !reports_app, !omap_app,
    !filter_app, Hpr, Hpa, Hpc, Hpm, Hqa, Hqc, Hdr, Hdc, Hda, Hdd, Hdm.
  assert (attempts (trace (resolve_output_dir w mp4_filepath output_dir)) = [])
    as -> by (unfold attempts; by rewrite Hdr).
  destruct (outcome (resolve_output_dir w mp4_filepath output_dir))
    as [[dir|]|e] eqn:Hstep.
  - rewrite (Hdir dir eq_refl).
    destruct (until_missing_range
                (fun i => binary_missing w
                   (pass_command w mp4_filepath
                      (resolved_dir w mp4_filepath output_dir)
                      (base_filename w mp4_filepath) i)) n)
      as (k & Hk & Hreached & Hbefore & Hlast).
    destruct (for_each_progress w mp4_filepath
                (resolved_dir w mp4_filepath output_dir)
                (base_filename w mp4_filepath) (range n) 0)
      as (Hlr & Hla & Hlc & Hlann & Hldone & Hlm).
    cbn zeta in Hlr, Hla, Hlc, Hlann, Hldone, Hlm.
    rewrite Hreached in Hlr, Hla, Hlann, Hldone, Hlm.
    exists k.
    rewrite !runs_app, !attempts_app, !created_app, !reports_app, !omap_app,
      !filter_app, Hlr, Hla, Hlc, Hlann, Hldone, Hlm.
    assert (∀ (A : Type) (s : result (flow Z)) (f : list event → list A),
              f [] = [] →
              (∀ d s', f (trace (report_summary w d s' n)) = []) →
              f match s with
                | Returned (Next s') =>
                    trace (report_summary w
                             (resolved_dir w mp4_filepath output_dir) s' n)
                | _ => []
                end = []) as Hsum.
    { intros A [[s'|]|e'] f Hnil Hf; by rewrite ?Hf. }
    rewrite (Hsum _ _ runs), (Hsum _ _ attempts), (Hsum _ _ created),
      (Hsum _ _ (fun t => omap announced (reports t))),
      (Hsum _ _ (fun t => omap completed (reports t))),
      (Hsum _ _ (fun t => filter is_ffmpeg_missing (reports t)));
      try done; try (intros; apply report_summary_progress);
      try (intros; apply attempts_summary).
    rewrite !app_nil_r. cbn [app].
    split_and!; try done; [lia|].
    intros n' Hn'. rewrite Hn in Hn'. injection Hn' as <-.
    rewrite bool_decide_true by lia.
    split_and!; [lia| |done].
    intros _ _ _. split; [|intros Hlt; by apply Hlast].
    destruct (decide (k < n)) as [Hlt|Hge]; [by apply Hlast|lia].
  - exists 0. rewrite !app_nil_r. cbn [app].
    split_and!; try done; [intros; lia|].
    intros n' Hn'. rewrite Hn in Hn'. injection Hn' as <-.
    rewrite bool_decide_true by lia.
    split_and!; [lia| |done].
    intros _ _ Hready.
    destruct (resolve_output_dir_ready w mp4_filepath output_dir Hready)
      as (td & Heq & _).
    unfold outcome in Hstep. by rewrite Heq in Hstep.
  - exists 0. rewrite !app_nil_r. cbn [app].
    split_and!; try done; [intros; lia|].
    intros n' Hn'. rewrite Hn in Hn'. injection Hn' as <-.
    rewrite bool_decide_true by lia.
    split_and!; [lia| |done].
    intros _ _ Hready.
    destruct (resolve_output_dir_ready w mp4_filepath output_dir Hready)
      as (td & Heq & _).
    unfold outcome in Hstep. by rewrite Heq in Hstep.
Qed.

(** ** The subprocesses of a run *)



(** X2: the directories a run creates.  When the input exists and the
    inspector counted a positive number of streams, the run calls
    [os.makedirs] once on the directory it was given if that directory does
    not exist, and on nothing else; in every other run it creates
    nothing. *)
Theorem directory_created_only_on_demand (w : world) (mp4_filepath : string)
    (output_dir : option string) (n : Z) :
  outcome (get_audio_stream_count w mp4_filepath) = Returned n →
  created (trace (extract_audio_tracks w mp4_filepath output_dir))
  = if isfile w mp4_filepath && bool_decide (0 < n)
    then match output_dir with
         | Some dir => if path_exists w dir then [] else [dir]
         | None => []
         end
    else [].
Proof.
  intros Hn.
  destruct (run_progress w mp4_filepath output_dir) as (k & _ & _ & Hcount & _).
  by destruct (Hcount n Hn) as (_ & _ & ->).
Qed.

Lemma directory_created_only_on_demand_witness :
  created (trace (extract_audio_tracks studio_fresh_dir movie (Some "/out")))
  = ["/out"]
  ∧ created (trace (extract_audio_tracks studio_fresh_dir movie (Some "/media")))
    = []
  ∧ created (trace (extract_audio_tracks studio_fresh_dir movie None)) = [].
Proof.
  split_and!.
  - by rewrite (directory_created_only_on_demand studio_fresh_dir movie
                  (Some "/out") 1).
  - by rewrite (directory_created_only_on_demand studio_fresh_dir movie
                  (Some "/media") 1).
  - by rewrite (directory_created_only_on_demand studio_fresh_dir movie None 1).
Defined.

(** ** The inspector's answer *)

(** X3: the sentinel is unambiguous.  [get_audio_stream_count] returns [-1]
    exactly when something raised inside its [try], and it writes to the
    console exactly then: a count is returned in silence, the only event
    being the probe. *)
Theorem sentinel_means_failure (w : world) (filepath : string) :
  let call := get_audio_stream_count w filepath in
  (outcome call = Returned (-1) ↔ ∃ e, outcome (inspect w filepath) = Raised e)
  ∧ (reports (trace call) ≠ [] ↔ outcome call = Returned (-1))
  ∧ (outcome call ≠ Returned (-1) →
     trace call = [Run (ffprobe_command filepath)]).
Proof.
  cbn zeta.
  destruct (get_audio_stream_count_cases w filepath)
    as [(n & Hi & Hc & Hn)|(e & m & ms & Hi & _ & Hc)]; rewrite Hc, Hi;
    change (outcome (?t, ?r)) with r; change (trace (?t, ?r)) with t.
  - split; [|split]; [split|split|done].
    + intros [= ->]. lia.
    + by intros [e He].
    + done.
    + intros [= ->]. lia.
  - split; [|split]; [split|split|done]; try done. eauto.
Qed.

Lemma sentinel_means_failure_witness :
  outcome (get_audio_stream_count (studio (Returned JNull) (Returned tt) [])
             movie) = Returned (-1)
  ∧ trace (get_audio_stream_count studio_second_fails movie)
    = [Run (ffprobe_command movie)].
Proof.
  split.
  - destruct (sentinel_means_failure
                (studio (Returned JNull) (Returned tt) []) movie)
      as (Hsentinel & _ & _).
    apply Hsentinel. eexists. reflexivity.
  - destruct (sentinel_means_failure studio_second_fails movie)
      as (_ & _ & Hsilent).
    apply Hsilent. discriminate.
Defined.



(** ** The attempts of a run *)

(** X5: in every run, whatever the world does, the extraction attempts are
    those for the tracks [0 .. k-1], in this order, for some [k] that does
    not exceed the inspector's count; no command is attempted twice, and
    every attempt except possibly the last found the ffmpeg binary. *)
Theorem attempts_are_an_initial_run (w : world) (mp4_filepath : string)
    (output_dir : option string) :
  let t := trace (extract_audio_tracks w mp4_filepath output_dir) in
  let command := track_command w mp4_filepath output_dir in
  ∃ k,
    0 ≤ k
    ∧ attempts t = command <$> range k
    ∧ (∀ n, outcome (get_audio_stream_count w mp4_filepath) = Returned n →
         k ≤ Z.max 0 n)
    ∧ (∀ j, 0 ≤ j < k - 1 → binary_missing w (command j) = false)
    ∧ NoDup (attempts t).
Proof.
  destruct (run_progress w mp4_filepath output_dir)
    as (k & Hk & Hfound & Hcount & _ & Hattempts & _).
  exists k. cbv zeta in *. split_and!; try done.
  - intros n Hn. by destruct (Hcount n Hn).
  - rewrite Hattempts. apply NoDup_fmap_2_strong; [|apply NoDup_seqZ].
    intros i j _ _. apply track_command_inj.
Qed.

Lemma attempts_are_an_initial_run_witness :
  ∃ k, 0 ≤ k
       ∧ attempts (trace (extract_audio_tracks studio_ffmpeg_vanishes movie None))
         = track_command studio_ffmpeg_vanishes movie None <$> range k
       ∧ k ≤ Z.max 0 3.
Proof.
  destruct (attempts_are_an_initial_run studio_ffmpeg_vanishes movie None)
    as (k & Hk & Hattempts & Hcount & _).
  exists k. split_and!; [done|done|]. apply Hcount. reflexivity.
Defined.

(** X6: the progress reports of a run mirror its attempts.  The indices
    announced (line 99) are exactly the attempted ones, in order; the
    indices reported done (line 103) are exactly the attempted ones whose
    transcode succeeded, in order.  So track [i] is reported done if and
    only if its attempt was made and succeeded. *)
Theorem progress_reports_match_attempts (w : world) (mp4_filepath : string)
    (output_dir : option string) :
  let t := trace (extract_audio_tracks w mp4_filepath output_dir) in
  let command := track_command w mp4_filepath output_dir in
  (∃ k,
     attempts t = command <$> range k
     ∧ omap announced (reports t) = range k
     ∧ omap completed (reports t)
       = filter (fun i => transcodes w (command i)) (range k))
  ∧ ∀ i, MsgTrackDone i ∈ reports t
         ↔ command i ∈ attempts t ∧ transcodes w (command i) = true.
Proof.
  destruct (run_progress w mp4_filepath output_dir)
    as (k & Hk & _ & _ & _ & Hattempts & Hann & Hdone & _).
  cbv zeta in *. split; [by exists k|].
  intros i. rewrite Hattempts, elem_of_track_commands.
  assert (MsgTrackDone i
            ∈ reports (trace (extract_audio_tracks w mp4_filepath output_dir))
          ↔ i ∈ omap completed
                  (reports
                     (trace (extract_audio_tracks w mp4_filepath output_dir))))
    as ->.
  { rewrite list_elem_of_omap. split.
    - intros Hin. by exists (MsgTrackDone i).
    - intros (m & Hin & Hm). destruct m; simplify_eq/=. done. }
  rewrite Hdone, list_elem_of_filter. unfold range.
  rewrite elem_of_seqZ, Is_true_true. split; intros [? ?]; split; (done || lia).
Qed.

Lemma progress_reports_match_attempts_witness :
  MsgTrackDone 2
    ∈ reports (trace (extract_audio_tracks studio_second_fails movie None)).
Proof.
  apply (progress_reports_match_attempts studio_second_fails movie None).
  split; [|reflexivity].
  vm_compute. apply list_elem_of_further, list_elem_of_further,
    list_elem_of_here.
Defined.

(** X7: a run reports a missing ffmpeg binary (line 106) if and only if one
    of its attempts found the binary missing, and then reports it once. *)
Theorem missing_ffmpeg_reported_iff_met (w : world) (mp4_filepath : string)
    (output_dir : option string) :
  let t := trace (extract_audio_tracks w mp4_filepath output_dir) in
  (MsgFfmpegMissing ∈ reports t
   ↔ ∃ command, command ∈ attempts t ∧ binary_missing w command = true)
  ∧ (length (filter is_ffmpeg_missing (reports t)) ≤ 1)%nat.
Proof.
  destruct (run_progress w mp4_filepath output_dir)
    as (k & _ & _ & _ & _ & Hattempts & _ & _ & Hmissing).
  cbv zeta in *.
  set (t := trace (extract_audio_tracks w mp4_filepath output_dir)) in *.
  set (missing := fun i =>
         binary_missing w (track_command w mp4_filepath output_dir i)) in *.
  assert (MsgFfmpegMissing ∈ reports t
          ↔ MsgFfmpegMissing ∈ filter is_ffmpeg_missing (reports t)) as ->.
  { rewrite list_elem_of_filter. split; [by split|by intros [_ ?]]. }
  rewrite Hmissing, Hattempts.
  destruct (existsb missing (range k)) eqn:Hexists.
  - split; [|simpl; lia]. split; [intros _|intros _; apply list_elem_of_here].
    apply existsb_exists in Hexists as (i & Hin & Hi).
    exists (track_command w mp4_filepath output_dir i). split; [|done].
    apply list_elem_of_fmap. exists i. by rewrite list_elem_of_In.
  - split; [|simpl; lia]. split; [intros Hin; by apply elem_of_nil in Hin|].
    intros (command & Hin & Hc).
    apply list_elem_of_fmap in Hin as (i & -> & Hin).
    assert (existsb missing (range k) = true) as Habsurd.
    { apply existsb_exists. exists i. by rewrite <-list_elem_of_In. }
    congruence.
Qed.

Lemma missing_ffmpeg_reported_iff_met_witness :
  MsgFfmpegMissing
    ∈ reports (trace (extract_audio_tracks studio_ffmpeg_vanishes movie None)).
Proof.
  apply (missing_ffmpeg_reported_iff_met studio_ffmpeg_vanishes movie None).
  exists (track_command studio_ffmpeg_vanishes movie None 1).
  split; [|reflexivity].
  vm_compute. apply list_elem_of_further, list_elem_of_here.
Defined.



(** ** When the call raises *)




(** ** The summary and the progress reports *)

(** The summary reports of a run: none, or the one of a complete loop. *)
Lemma summary_of_run (w : world) (mp4_filepath : string)
    (output_dir : option string) :
  let t := trace (extract_audio_tracks w mp4_filepath output_dir) in
  let command := track_command w mp4_filepath output_dir in
  filter is_summary (reports t) = []
  ∨ ∃ n m,
      0 < n
      ∧ outcome (get_audio_stream_count w mp4_filepath) = Returned n
      ∧ attempts t = command <$> range n
      ∧ filter is_summary (reports t) = [m]
      ∧ let successes :=
          Z.of_nat
            (length (filter (fun i => transcodes w (command i)) (range n))) in
        (successes = n ∧ m = MsgAllSucceeded successes)
        ∨ (0 < successes < n ∧ m = MsgPartial successes)
        ∨ (successes = 0 ∧ m = MsgAllFailed).
Proof.
  cbv zeta.
  destruct (run_shapes w mp4_filepath output_dir)
    as [[_ Hnone]|(n & Hfile & Hn & Hpos & Hready & Hstop)]; [by left|].
  destruct Hstop as [Hall|(k & Hk & Hbefore & Hmissing)].
  - right.
    destruct (run_complete _ _ _ _ Hfile Hn Hpos Hready Hall)
      as (before & Hcall & _ & Hquiet).
    pose proof (successes_bounds w (track_command w mp4_filepath output_dir)
                  n ltac:(lia)) as Hbounds.
    destruct (report_summary_cases w (resolved_dir w mp4_filepath output_dir)
                _ n Hpos Hbounds)
      as (m & rest & Hsum & Hm & Hrest & Hcase_all & Hcase_some & Hcase_none).
    exists n, m. split; [done|]. split; [done|].
    split; [by apply attempts_complete|]. split.
    + rewrite Hcall. change (trace (?t, ?r)) with t.
      rewrite Hsum. change (trace (?t, ?r)) with t.
      rewrite reports_app, filter_app, Hquiet.
      change (Console m :: (Console <$> rest)) with (Console <$> (m :: rest)).
      rewrite reports_prints, filter_cons_True by by apply Is_true_true.
      by rewrite Hrest.
    + destruct Hbounds as [Hlow Hhigh].
      destruct (decide (Z.of_nat
                          (length
                             (filter
                                (fun i => transcodes w
                                   (track_command w mp4_filepath output_dir i))
                                (range n))) = n)) as [Heq|Hne].
      { left. split; [done|]. by apply Hcase_all. }
      destruct (decide (Z.of_nat
                          (length
                             (filter
                                (fun i => transcodes w
                                   (track_command w mp4_filepath output_dir i))
                                (range n))) = 0)) as [Hzero|Hnz].
      { right; right. split; [done|]. by apply Hcase_none. }
      right; left. split; [lia|]. apply Hcase_some. lia.
  - left.
    destruct (run_halted _ _ _ _ _ Hfile Hn Hready Hk Hbefore Hmissing)
      as (before & -> & _ & Hquiet).
    change (trace (?t, ?r)) with t.
    by rewrite reports_app, filter_app, Hquiet.
Qed.

(** X10: the summary agrees with the progress reports.  The number of
    extracted tracks that a summary states is the number of tracks the run
    reported done, the "all succeeded" summary is reported only when every
    counted track was reported done, and the "all failed" summary only when
    none was. *)
Theorem summary_agrees_with_done_reports (w : world) (mp4_filepath : string)
    (output_dir : option string) (m : message) :
  let t := trace (extract_audio_tracks w mp4_filepath output_dir) in
  let reported_done := Z.of_nat (length (omap completed (reports t))) in
  m ∈ reports t →
  (∀ s, summary_count m = Some s → s = reported_done)
  ∧ (∀ s n, m = MsgAllSucceeded s →
       outcome (get_audio_stream_count w mp4_filepath) = Returned n →
       reported_done = n)
  ∧ (m = MsgAllFailed → reported_done = 0).
Proof.
  intros t reported_done Hin. subst t reported_done.
  destruct (summary_of_run w mp4_filepath output_dir)
    as [Hnone|(n & m' & Hpos & Hn & Hattempts & Hsummary & Hcases)];
    cbv zeta in *.
  { assert (is_summary m = true →
            m ∈ filter is_summary
                  (reports
                     (trace (extract_audio_tracks w mp4_filepath output_dir))))
      as Hfilter.
    { intros Hm. apply list_elem_of_filter. by rewrite Hm. }
    rewrite Hnone in Hfilter.
    split_and!.
    - intros s Hs. destruct m; try discriminate Hs;
        by apply elem_of_nil in Hfilter.
    - intros s n -> _. by apply elem_of_nil in Hfilter.
    - intros ->. by apply elem_of_nil in Hfilter. }
  destruct (run_progress w mp4_filepath output_dir)
    as (k & Hk & _ & Hcount & _ & Hattempts' & _ & Hdone & _).
  cbv zeta in *.
  assert (k = n) as ->.
  { rewrite Hattempts in Hattempts'.
    apply (f_equal length) in Hattempts'. unfold range in Hattempts'.
    rewrite !length_fmap, !length_seqZ in Hattempts'. lia. }
  rewrite Hdone.
  assert (is_summary m = true → m = m') as Hsame.
  { intros Hm.
    assert (m ∈ filter is_summary
                  (reports
                     (trace (extract_audio_tracks w mp4_filepath output_dir))))
      as Hfilter by (apply list_elem_of_filter; by rewrite Hm).
    rewrite Hsummary in Hfilter. by apply list_elem_of_singleton in Hfilter. }
  split_and!.
  - intros s Hs.
    assert (m = m') as -> by (apply Hsame; by destruct m).
    destruct Hcases as [[_ ->]|[[_ ->]|[_ ->]]]; by simplify_eq/=.
  - intros s n' -> Hn'.
    assert (MsgAllSucceeded s = m') as <- by by apply Hsame.
    rewrite Hn in Hn'. injection Hn' as <-.
    by destruct Hcases as [[Heq _]|[[? ?]|[_ ?]]].
  - intros ->.
    assert (MsgAllFailed = m') as <- by by apply Hsame.
    by destruct Hcases as [[_ ?]|[[_ ?]|[-> _]]].
Qed.

Lemma summary_agrees_with_done_reports_witness :
  2 = Z.of_nat
        (length
           (omap completed
              (reports
                 (trace (extract_audio_tracks studio_second_fails movie None))))).
Proof.
  apply (summary_agrees_with_done_reports studio_second_fails movie None
           (MsgPartial 2)); [|reflexivity].
  vm_compute. do 10 apply list_elem_of_further. apply list_elem_of_here.
Defined.

(** ** The console output of a run *)

Section Output.
Context (w : world) (mp4_filepath output_dir base_filename : string).

Local Abbreviation command :=
  (pass_command w mp4_filepath output_dir base_filename).
Local Abbreviation missing := (fun i => binary_missing w (command i)).

(** The counter has no influence on what a pass does to the outside. *)
Lemma extract_track_trace_counter (i s1 s2 : Z) :
  trace (extract_track w mp4_filepath output_dir base_filename i s1)
  = trace (extract_track w mp4_filepath output_dir base_filename i s2).
Proof.
  unfold extract_track, run.
  destruct (subprocess_run w _) as [out|e]; [done|].
  by destruct e as [?|?|rc [[|a s]|]|?|?|?|??].
Qed.

(** What a pass reports. *)
Lemma extract_track_reports (i s : Z) :
  let pass := extract_track w mp4_filepath output_dir base_filename i s in
  Forall (fun m => phase_of m = Tracks) (reports (trace pass))
  ∧ omap commanded (reports (trace pass))
    = (if fails w (command i) then [command i] else []).
Proof.
  unfold extract_track, fails, run. fold (command i).
  destruct (subprocess_run w (command i)) as [out|e].
  - split; [|done]. by repeat constructor.
  - destruct e as [?|?|rc [[|a s']|]|?|?|?|??];
      (split; [by repeat constructor|done]).
Qed.

(** The reports of the loop are those of the passes it gets to. *)
Lemma for_each_reports (indices : list Z) (s : Z) :
  reports (trace (for_each w mp4_filepath output_dir base_filename indices s))
  = until_missing missing indices
      ≫= fun i =>
           reports
             (trace (extract_track w mp4_filepath output_dir base_filename
                       i 0)).
Proof.
  revert s. induction indices as [|i rest IH]; intros s; [done|].
  destruct (extract_track_progress w mp4_filepath output_dir base_filename i s)
    as (_ & _ & _ & _ & _ & _ & Hout).
  simpl for_each. rewrite trace_bind, Hout, reports_app.
  simpl until_missing. rewrite bind_cons.
  rewrite (extract_track_trace_counter i s 0). f_equal.
  destruct (missing i); [done|]. apply IH.
Qed.
End Output.

Lemma get_audio_stream_count_opening (w : world) (filepath : string) :
  Forall (fun m => phase_of m = Opening)
    (reports (trace (get_audio_stream_count w filepath))).
Proof.
  pose proof (inspect_trace w filepath) as Ht.
  unfold get_audio_stream_count, try_except, trace in *.
  destruct (inspect w filepath) as [t [n|e]]; simpl in Ht; subst t;
    [by constructor|].
  destruct e as [?|?|rc [[|a s]|]|?|?|?|??]; by repeat constructor.
Qed.

Lemma resolve_output_dir_opening (w : world) (mp4_filepath : string)
    (output_dir : option string) :
  Forall (fun m => phase_of m = Opening)
    (reports (trace (resolve_output_dir w mp4_filepath output_dir))).
Proof.
  rewrite resolve_output_dir_cases.
  destruct output_dir as [dir|]; [|by constructor].
  destruct (path_exists w dir); [by constructor|].
  destruct (makedirs w dir) as [[]|e]; [by repeat constructor|].
  destruct (is_OSError e); by repeat constructor.
Qed.

Lemma report_summary_closing (w : world) (output_dir : string)
    (successful_extractions num_audio_tracks : Z) :
  Forall (fun m => phase_of m = Closing)
    (reports
       (trace (report_summary w output_dir successful_extractions
                 num_audio_tracks))).
Proof. unfold report_summary. repeat case_match; by repeat constructor. Qed.

(** The console output of any run: opening reports, then the reports of
    the passes for the attempted tracks, then closing reports. *)
Lemma run_reports (w : world) (mp4_filepath : string)
    (output_dir : option string) :
  let t := trace (extract_audio_tracks w mp4_filepath output_dir) in
  ∃ k opening closing,
    attempts t = track_command w mp4_filepath output_dir <$> range k
    ∧ reports t
      = opening ++ (range k ≫= pass_reports w mp4_filepath output_dir)
          ++ closing
    ∧ Forall (fun m => phase_of m = Opening) opening
    ∧ Forall (fun m => phase_of m = Closing) closing.
Proof.
  cbv zeta.
  destruct (isfile w mp4_filepath) eqn:Hfile; last first.
  { exists 0, [MsgInputNotFound mp4_filepath], [].
    unfold extract_audio_tracks. rewrite Hfile.
    split_and!; try done. by repeat constructor. }
  destruct (get_audio_stream_count_total w mp4_filepath) as [n Hn].
  pose proof (get_audio_stream_count_opening w mp4_filepath) as Hopening.
  destruct (get_audio_stream_count_quiet w mp4_filepath) as [Hqa _].
  destruct (decide (n ≤ 0)) as [Hle|Hpos].
  { exists 0,
      (MsgProcessing mp4_filepath
         :: reports (trace (get_audio_stream_count w mp4_filepath))
         ++ (if bool_decide (n = 0) then [MsgNoTracks mp4_filepath] else [])),
      [].
    assert (trace (extract_audio_tracks w mp4_filepath output_dir)
            = Console (MsgProcessing mp4_filepath)
                :: trace (get_audio_stream_count w mp4_filepath)
                ++ (if bool_decide (n = 0)
                    then [Console (MsgNoTracks mp4_filepath)] else []))
      as ->.
    { rewrite (extract_audio_tracks_after_inspection _ _ _ _ Hfile Hn).
      rewrite trace_bind. change (trace (?t, ?r)) with t.
      change (outcome (?t, ?r)) with r. cbv iota beta.
      rewrite bool_decide_true by done. cbn [app]. f_equal. f_equal.
      by destruct (bool_decide (n = 0)). }
    change (?a :: ?t ++ ?u) with ([a] ++ t ++ u).
    rewrite !attempts_app, !reports_app, Hqa.
    split_and!; [by destruct (bool_decide (n = 0))
                |by destruct (bool_decide (n = 0)); rewrite ?app_nil_r
                | |done].
    constructor; [done|]. apply Forall_app. split; [done|].
    destruct (bool_decide (n = 0)); by repeat constructor. }
  rewrite (extract_audio_tracks_trace _ _ _ _ Hfile Hn) by lia.
  pose proof (resolve_output_dir_opening w mp4_filepath output_dir) as Hstep.
  destruct (resolve_output_dir_progress w mp4_filepath output_dir)
    as (Hdr & _ & _ & _ & _ & Hdir).
  assert (attempts (trace (resolve_output_dir w mp4_filepath output_dir)) = [])
    as Hda by (unfold attempts; by rewrite Hdr).
  change (?a :: ?t ++ ?b :: ?u ++ ?v) with ([a] ++ t ++ [b] ++ u ++ v).
  rewrite !attempts_app, !reports_app, Hqa, Hda.
  change (attempts [Console ?m]) with (@nil (list string)).
  change (reports [Console ?m]) with [m]. cbn [app].
  assert (Forall (fun m => phase_of m = Opening)
            (MsgProcessing mp4_filepath
               :: reports (trace (get_audio_stream_count w mp4_filepath))
               ++ MsgTracksFound mp4_filepath n
               :: reports
                    (trace (resolve_output_dir w mp4_filepath output_dir))))
    as Hfirst.
  { constructor; [done|]. apply Forall_app. split; [done|].
    by constructor. }
  destruct (outcome (resolve_output_dir w mp4_filepath output_dir))
    as [[dir|]|e] eqn:Hout.
  - rewrite (Hdir dir eq_refl).
    destruct (until_missing_range
                (fun i => binary_missing w
                   (pass_command w mp4_filepath
                      (resolved_dir w mp4_filepath output_dir)
                      (base_filename w mp4_filepath) i)) n)
      as (k & _ & Hreached & _).
    destruct (for_each_progress w mp4_filepath
                (resolved_dir w mp4_filepath output_dir)
                (base_filename w mp4_filepath) (range n) 0)
      as (_ & Hla & _).
    cbv zeta in Hla.
    pose proof (for_each_reports w mp4_filepath
                  (resolved_dir w mp4_filepath output_dir)
                  (base_filename w mp4_filepath) (range n) 0) as Hlr.
    rewrite Hreached in Hla, Hlr.
    rewrite attempts_app, reports_app, Hla, Hlr.
    exists k,
      (MsgProcessing mp4_filepath
         :: reports (trace (get_audio_stream_count w mp4_filepath))
         ++ MsgTracksFound mp4_filepath n
         :: reports (trace (resolve_output_dir w mp4_filepath output_dir))).
    eexists. split_and!; [|cbn [app]; by rewrite <-!app_assoc|done|].
    + destruct (outcome (for_each _ _ _ _ _ _)) as [[s|]|e];
        by rewrite ?attempts_summary, app_nil_r.
    + destruct (outcome (for_each _ _ _ _ _ _)) as [[s|]|e];
        [apply report_summary_closing|by constructor..].
  - exists 0,
      (MsgProcessing mp4_filepath
         :: reports (trace (get_audio_stream_count w mp4_filepath))
         ++ MsgTracksFound mp4_filepath n
         :: reports (trace (resolve_output_dir w mp4_filepath output_dir))),
      [].
    split_and!; [done| |done|done].
    cbn [app]. by rewrite !app_nil_r.
  - exists 0,
      (MsgProcessing mp4_filepath
         :: reports (trace (get_audio_stream_count w mp4_filepath))
         ++ MsgTracksFound mp4_filepath n
         :: reports (trace (resolve_output_dir w mp4_filepath output_dir))),
      [].
    split_and!; [done| |done|done].
    cbn [app]. by rewrite !app_nil_r.
Qed.

(** X11: the console output of every run comes in three parts, in this
    order: reports from before the loop, then one block of reports per
    attempted track, in the order of the attempts, then reports of the
    summary.  No report of the loop appears outside its track's block. *)
Theorem console_output_in_three_phases (w : world) (mp4_filepath : string)
    (output_dir : option string) :
  let t := trace (extract_audio_tracks w mp4_filepath output_dir) in
  ∃ k opening closing,
    attempts t = track_command w mp4_filepath output_dir <$> range k
    ∧ reports t
      = opening ++ (range k ≫= pass_reports w mp4_filepath output_dir)
          ++ closing
    ∧ Forall (fun m => phase_of m = Opening) opening
    ∧ (∀ i, Forall (fun m => phase_of m = Tracks)
              (pass_reports w mp4_filepath output_dir i))
    ∧ Forall (fun m => phase_of m = Closing) closing.
Proof.
  destruct (run_reports w mp4_filepath output_dir)
    as (k & opening & closing & Hattempts & Hreports & Hopening & Hclosing).
  exists k, opening, closing. split_and!; try done.
  intros i. apply extract_track_reports.
Qed.

Lemma omap_commanded_other (ms : list message) (p : phase) :
  p ≠ Tracks →
  Forall (fun m => phase_of m = p) ms →
  omap commanded ms = [].
Proof.
  intros Hp. induction 1 as [|m ms Hm _ IH]; [done|].
  destruct m; simpl in *; try exact IH; by subst.
Qed.

Lemma omap_commanded_passes (w : world) (mp4_filepath : string)
    (output_dir : option string) (indices : list Z) :
  omap commanded (indices ≫= pass_reports w mp4_filepath output_dir)
  = filter (fun command => fails w command)
      (track_command w mp4_filepath output_dir <$> indices).
Proof.
  induction indices as [|i rest IH]; [done|].
  rewrite bind_cons, omap_app, IH, fmap_cons.
  destruct (extract_track_reports w mp4_filepath
              (resolved_dir w mp4_filepath output_dir)
              (base_filename w mp4_filepath) i 0) as [_ Hshown].
  cbv zeta in Hshown. unfold pass_reports at 1. rewrite Hshown.
  fold (track_command w mp4_filepath output_dir i).
  destruct (fails w (track_command w mp4_filepath output_dir i)) eqn:Hfails.
  - by rewrite filter_cons_True by by apply Is_true_true.
  - by rewrite filter_cons_False by by apply Is_true_false.
Qed.

(** X12: the command lines a run shows (lines 110 and 118) are exactly
    those of its attempts that failed with the ffmpeg binary present, in
    the order of the attempts: a failed attempt always has its command
    shown, and no command is shown for an attempt that succeeded or found
    no binary. *)
Theorem failed_attempts_show_their_command (w : world)
    (mp4_filepath : string) (output_dir : option string) :
  let t := trace (extract_audio_tracks w mp4_filepath output_dir) in
  omap commanded (reports t)
  = filter (fun command => fails w command) (attempts t)
  ∧ ∀ command,
      MsgCommand command ∈ reports t
      ↔ command ∈ attempts t ∧ fails w command = true.
Proof.
  cbv zeta.
  assert (omap commanded
            (reports (trace (extract_audio_tracks w mp4_filepath output_dir)))
          = filter (fun command => fails w command)
              (attempts
                 (trace (extract_audio_tracks w mp4_filepath output_dir))))
    as Hshown.
  { destruct (run_reports w mp4_filepath output_dir)
      as (k & opening & closing & -> & -> & Hopening & Hclosing).
    rewrite !omap_app, omap_commanded_passes.
    rewrite (omap_commanded_other opening Opening) by done.
    rewrite (omap_commanded_other closing Closing) by done.
    by rewrite app_nil_r. }
  split; [done|]. intros command.
  assert (command
            ∈ filter (fun command => fails w command)
                (attempts
                   (trace (extract_audio_tracks w mp4_filepath output_dir)))
          ↔ command
              ∈ attempts
                  (trace (extract_audio_tracks w mp4_filepath output_dir))
            ∧ fails w command = true) as <-.
  { rewrite list_elem_of_filter, Is_true_true.
    split; intros [? ?]; by split. }
  rewrite <-Hshown, list_elem_of_omap. split.
  - intros Hin. by exists (MsgCommand command).
  - intros (m & Hin & Hm). destruct m; simplify_eq/=. done.
Qed.

Lemma failed_attempts_show_their_command_witness :
  MsgCommand (track_command studio_second_fails movie None 1)
    ∈ reports (trace (extract_audio_tracks studio_second_fails movie None)).
Proof.
  apply (failed_attempts_show_their_command studio_second_fails movie None).
  split; [|reflexivity].
  vm_compute. apply list_elem_of_further, list_elem_of_here.
Defined.
